(** * tf_dependency_fetcher: the fetch-and-cache pipeline of [main.py]

    A shallow embedding of [class TensorflowRepo] and [main]:
    the URL extractor (two regular expressions and the mirror filter), the
    cache ledger (MD5 marker names, the [glob] check), the downloader and the
    batch loop with its [try]/[except], and the constructor.

    A Python [str] is modelled by a Rocq [string]; [bytes] by [list byte].
    A [str] stands for its UTF-8 bytes, so [str.encode()] keeps the
    characters as they are. *)

From Stdlib Require Import ZArith Ascii String List Bool Lia DecimalString.
From Stdlib Require Import Strings.Byte.
From stdpp Require Import base option list strings gmap fin_maps.

Local Open Scope string_scope.

(** ** Strings *)

Module Str.

(** [needle in hay] on [str]: some position of [hay] starts with [needle]. *)
Fixpoint contains (needle hay : string) : bool :=
  String.prefix needle hay ||
  match hay with
  | EmptyString => false
  | String _ hay' => contains needle hay'
  end.

(** The text that [s] lost to reach its suffix [rest]. *)
Fixpoint take (n : nat) (s : string) : string :=
  match n, s with
  | S k, String c s' => String c (take k s')
  | _, _ => EmptyString
  end.

Definition consumed (s rest : string) : string :=
  take (String.length s - String.length rest) s.

(** [s.split(sep)] for a one-character separator. *)
Fixpoint split (sep : ascii) (s : string) : list string :=
  match s with
  | EmptyString => [EmptyString]
  | String c s' =>
      if Ascii.eqb c sep then EmptyString :: split sep s'
      else match split sep s' with
           | w :: ws => String c w :: ws
           | [] => [String c EmptyString]
           end
  end.

Fixpoint rev_acc (s acc : string) : string :=
  match s with
  | EmptyString => acc
  | String c s' => rev_acc s' (String c acc)
  end.

Definition rev (s : string) : string := rev_acc s EmptyString.

(** [s.lstrip(chars)], [s.rstrip(chars)] and [s.strip(chars)]. *)
Fixpoint lstrip (p : ascii -> bool) (s : string) : string :=
  match s with
  | String c s' => if p c then lstrip p s' else s
  | EmptyString => EmptyString
  end.

Definition rstrip (p : ascii -> bool) (s : string) : string :=
  rev (lstrip p (rev s)).

Definition strip (p : ascii -> bool) (s : string) : string :=
  rstrip p (lstrip p s).

(** The characters [str.strip()] removes when called without argument. *)
Definition is_space (c : ascii) : bool :=
  let n := nat_of_ascii c in
  ((9 <=? n)%nat && (n <=? 13)%nat) || ((28 <=? n)%nat && (n <=? 32)%nat).

Definition one_of (chars : string) (c : ascii) : bool :=
  existsb (Ascii.eqb c) (list_ascii_of_string chars).

(** [s.lower()] on the ASCII letters. *)
Definition lower_ascii (c : ascii) : ascii :=
  let n := nat_of_ascii c in
  if ((65 <=? n)%nat && (n <=? 90)%nat) then ascii_of_nat (n + 32) else c.

Fixpoint lower (s : string) : string :=
  match s with
  | EmptyString => EmptyString
  | String c s' => String (lower_ascii c) (lower s')
  end.

(** Every character of [s] satisfies [p]. *)
Fixpoint all_chars (p : ascii -> bool) (s : string) : bool :=
  match s with
  | EmptyString => true
  | String c s' => p c && all_chars p s'
  end.

(** [s.encode()] *)
Definition encode (s : string) : list byte := list_byte_of_string s.

(** [str(n)] for an [int]. *)
Definition of_Z (n : Z) : string := NilZero.string_of_int (Z.to_int n).

(** [sep.join(l)]. *)
Fixpoint join (sep : string) (l : list string) : string :=
  match l with
  | [] => EmptyString
  | [x] => x
  | x :: rest => x +:+ sep +:+ join sep rest
  end.

End Str.

(** ** Regular expressions: the fragment of [re] that the program uses

    Matching is by backtracking: [run] lists every way the expression can
    match at the start of the text, in the order in which [re] tries them
    (a greedy quantifier tries the longest repetition first), and the match
    [re] reports is the first of the list. *)

Module Re.

Inductive atom : Type :=
| Chr (c : ascii)          (* a literal character *)
| Dot.                     (* [.]: any character but a newline *)

Inductive regex : Type :=
| Eps
| Atom (a : atom)
| Star (a : atom)          (* [a*], greedy *)
| Plus (a : atom)          (* [a+], greedy *)
| Opt (r : regex)          (* [r?], greedy *)
| Cat (r1 r2 : regex)
| Group (r : regex).       (* [(r)]: the capturing group *)

(** A literal string, character by character. *)
Fixpoint Lit (s : string) : regex :=
  match s with
  | EmptyString => Eps
  | String c s' => Cat (Atom (Chr c)) (Lit s')
  end.

Definition newline : ascii := ascii_of_nat 10.

Definition accepts (a : atom) (c : ascii) : bool :=
  match a with
  | Chr d => Ascii.eqb c d
  | Dot => negb (Ascii.eqb c newline)
  end.

(** The text still to read, and what the group captured so far. *)
Definition mstate : Type := string * option string.

(** [a*] from [s]: the remainders, longest repetition first. *)
Fixpoint star (a : atom) (s : string) : list string :=
  match s with
  | String c s' => if accepts a c then star a s' ++ [s] else [s]
  | EmptyString => [s]
  end.

Definition step (a : atom) (s : string) : list string :=
  match s with
  | String c s' => if accepts a c then [s'] else []
  | EmptyString => []
  end.

Fixpoint run (r : regex) (st : mstate) : list mstate :=
  match r with
  | Eps => [st]
  | Atom a => (fun s' => (s', st.2)) <$> step a st.1
  | Star a => (fun s' => (s', st.2)) <$> star a st.1
  | Plus a => (fun s' => (s', st.2)) <$> (step a st.1 ≫= star a)
  | Opt r' => run r' st ++ [st]
  | Cat r1 r2 => run r1 st ≫= run r2
  | Group r' => (fun st' : mstate => (st'.1, Some (Str.consumed st.1 st'.1))) <$> run r' st
  end.

(** The match at the start of [s]: what is left of [s] after it, and the
    text of the group ([re] reports an unset group as the empty string). *)
Definition match_here (r : regex) (s : string) : option (string * string) :=
  match run r (s, None) with
  | (rest, cap) :: _ => Some (rest, default EmptyString cap)
  | [] => None
  end.

(** [re.findall(r, s)] for an expression with one group: the group's text
    for every match, scanning from the left, each search resuming where the
    previous match ended. [skip] counts the characters of the previous match
    that are still to be passed. A match of no character moves the scan one
    character on; the two expressions of this program never match so. *)
Fixpoint findall_from (r : regex) (s : string) (skip : nat) : list string :=
  match s with
  | EmptyString =>
      match skip, match_here r EmptyString with
      | O, Some (_, g) => [g]
      | _, _ => []
      end
  | String _ s' =>
      match skip with
      | S k => findall_from r s' k
      | O =>
          match match_here r s with
          | Some (rest, g) =>
              g :: findall_from r s' (String.length s - String.length rest - 1)
          | None => findall_from r s' 0
          end
      end
  end.

Definition findall (r : regex) (s : string) : list string := findall_from r s 0.

End Re.

(** ** The URL extractor *)

Definition dquote : ascii := ascii_of_nat 34.

(** [DEPENDENCY_URL_PATTERN]: a double quote, the group [https://] followed
    by a greedy run of any characters, a double quote, an optional comma. *)
Definition DEPENDENCY_URL_PATTERN : Re.regex :=
  Re.Cat (Re.Atom (Re.Chr dquote))
    (Re.Cat (Re.Group (Re.Cat (Re.Lit "https://") (Re.Star Re.Dot)))
       (Re.Cat (Re.Atom (Re.Chr dquote)) (Re.Opt (Re.Atom (Re.Chr ","))))).

Definition _is_mirror_url (url : string) : bool :=
  Str.contains "mirror.bazel.build" url || Str.contains "mirror.tensorflow.org" url.

Definition _extract_dependency_urls (contents : string) (remove_mirrors : bool)
  : list string :=
  let urls := Re.findall DEPENDENCY_URL_PATTERN contents in
  let urls :=
    if remove_mirrors
    then filter (fun link => negb (_is_mirror_url link) = true) urls
    else urls in
  urls.

(** ** MD5, as [hashlib.md5(data).hexdigest()] computes it (RFC 1321)

    32-bit words are [Z] with the wrap-around written out. *)

Module MD5.

Local Open Scope Z_scope.

Definition add32 (x y : Z) : Z := (x + y) mod 2 ^ 32.

Definition not32 (x : Z) : Z := Z.lxor x 0xffffffff.

Definition rotl32 (x n : Z) : Z :=
  Z.lor (Z.shiftl x n mod 2 ^ 32) (Z.shiftr x (32 - n)).

Definition shifts : list Z :=
  [7; 12; 17; 22; 7; 12; 17; 22; 7; 12; 17; 22; 7; 12; 17; 22;
   5; 9; 14; 20; 5; 9; 14; 20; 5; 9; 14; 20; 5; 9; 14; 20;
   4; 11; 16; 23; 4; 11; 16; 23; 4; 11; 16; 23; 4; 11; 16; 23;
   6; 10; 15; 21; 6; 10; 15; 21; 6; 10; 15; 21; 6; 10; 15; 21].

(** [floor(abs(sin(i + 1)) * 2^32)] for [i] from 0 to 63. *)
Definition sines : list Z :=
  [0xd76aa478; 0xe8c7b756; 0x242070db; 0xc1bdceee;
   0xf57c0faf; 0x4787c62a; 0xa8304613; 0xfd469501;
   0x698098d8; 0x8b44f7af; 0xffff5bb1; 0x895cd7be;
   0x6b901122; 0xfd987193; 0xa679438e; 0x49b40821;
   0xf61e2562; 0xc040b340; 0x265e5a51; 0xe9b6c7aa;
   0xd62f105d; 0x02441453; 0xd8a1e681; 0xe7d3fbc8;
   0x21e1cde6; 0xc33707d6; 0xf4d50d87; 0x455a14ed;
   0xa9e3e905; 0xfcefa3f8; 0x676f02d9; 0x8d2a4c8a;
   0xfffa3942; 0x8771f681; 0x6d9d6122; 0xfde5380c;
   0xa4beea44; 0x4bdecfa9; 0xf6bb4b60; 0xbebfbc70;
   0x289b7ec6; 0xeaa127fa; 0xd4ef3085; 0x04881d05;
   0xd9d4d039; 0xe6db99e5; 0x1fa27cf8; 0xc4ac5665;
   0xf4292244; 0x432aff97; 0xab9423a7; 0xfc93a039;
   0x655b59c3; 0x8f0ccc92; 0xffeff47d; 0x85845dd1;
   0x6fa87e4f; 0xfe2ce6e0; 0xa3014314; 0x4e0811a1;
   0xf7537e82; 0xbd3af235; 0x2ad7d2bb; 0xeb86d391].

(** The [n] low bytes of [x], least significant first. *)
Fixpoint le_bytes (n : nat) (x : Z) : list Z :=
  match n with
  | O => []
  | S k => x mod 256 :: le_bytes k (x / 256)
  end.

Fixpoint le_word (bs : list Z) : Z :=
  match bs with
  | [] => 0
  | b :: bs' => b + 256 * le_word bs'
  end.

(** Padding: a 1 bit, zeros up to 56 modulo 64 bytes, the bit length on 8 bytes. *)
Definition pad (msg : list Z) : list Z :=
  let len := Z.of_nat (length msg) in
  msg ++ [0x80] ++ replicate (Z.to_nat ((55 - len) mod 64)) 0
      ++ le_bytes 8 ((8 * len) mod 2 ^ 64).

Fixpoint blocks (n : nat) (l : list Z) : list (list Z) :=
  match n with
  | O => []
  | S k => take 64 l :: blocks k (drop 64 l)
  end.

Fixpoint words (n : nat) (l : list Z) : list Z :=
  match n with
  | O => []
  | S k => le_word (take 4 l) :: words k (drop 4 l)
  end.

Definition state : Type := Z * Z * Z * Z.

Definition round (M : list Z) (st : state) (i : nat) : state :=
  let '(A, B, C, D) := st in
  let iz := Z.of_nat i in
  let '(F, g) :=
    if iz <? 16 then (Z.lor (Z.land B C) (Z.land (not32 B) D), iz)
    else if iz <? 32 then (Z.lor (Z.land D B) (Z.land (not32 D) C), (5 * iz + 1) mod 16)
    else if iz <? 48 then (Z.lxor (Z.lxor B C) D, (3 * iz + 5) mod 16)
    else (Z.lxor C (Z.lor B (not32 D)), (7 * iz) mod 16) in
  let F := add32 (add32 (add32 F A) (nth i sines 0)) (nth (Z.to_nat g) M 0) in
  (D, add32 B (rotl32 F (nth i shifts 0)), B, C).

Definition process (st : state) (block : list Z) : state :=
  let M := words 16 block in
  let '(A, B, C, D) := fold_left (round M) (seq 0 64) st in
  let '(a0, b0, c0, d0) := st in
  (add32 a0 A, add32 b0 B, add32 c0 C, add32 d0 D).

Definition init : state := (0x67452301, 0xefcdab89, 0x98badcfe, 0x10325476).

(** [hashlib.md5(data).digest()] *)
Definition digest (data : list byte) : list Z :=
  let padded := pad ((fun b => Z.of_N (Byte.to_N b)) <$> data) in
  let '(a0, b0, c0, d0) :=
    fold_left process (blocks (length padded / 64) padded) init in
  le_bytes 4 a0 ++ le_bytes 4 b0 ++ le_bytes 4 c0 ++ le_bytes 4 d0.

Definition hex_digit (n : Z) : ascii :=
  if n <? 10 then ascii_of_N (Z.to_N (48 + n)) else ascii_of_N (Z.to_N (87 + n)).

Fixpoint hex (bs : list Z) : string :=
  match bs with
  | [] => EmptyString
  | b :: bs' => String (hex_digit (b / 16)) (String (hex_digit (b mod 16)) (hex bs'))
  end.

(** [hashlib.md5(data).hexdigest()] *)
Definition hexdigest (data : list byte) : string := hex (digest data).

End MD5.

(** ** The cache ledger: marker names *)

Definition _ckpt_filename (url : string) : string :=
  let url_hash := MD5.hexdigest (Str.encode url) in
  let filename := "@" +:+ url_hash +:+ ".txt" in
  filename.

(** ** Exceptions *)

(** An exception object: its class and its message, [str(e)]. Every class
    raised in this model derives from [Exception]. *)
Record exn : Type := Exn { exn_class : string; exn_msg : string }.

Inductive result (A : Type) : Type :=
| Ok (a : A)
| Raise (e : exn).

Arguments Ok {A} a.
Arguments Raise {A} e.

(** ** Paths, as [pathlib.PurePosixPath] parses them

    A path is its [parts] tuple: the root, if any, then the components;
    empty components and [.] are dropped, [..] is kept. A path is not
    resolved: two spellings of one file, through [..] or a link, are two
    paths here, so what is proved of the contents of a file is proved of
    the path that was written. *)

Module Path.

Definition t : Type := list string.

Definition root_of (s : string) : list string :=
  if String.prefix "///" s then ["/"]
  else if String.prefix "//" s then ["//"]
  else if String.prefix "/" s then ["/"]
  else [].

Definition is_component (c : string) : bool :=
  negb (String.eqb c "") && negb (String.eqb c ".").

(** [Path(s)] *)
Definition of_string (s : string) : t :=
  (root_of s ++ List.filter is_component (Str.split "/" s))%list.

Definition is_root (c : string) : bool := String.prefix "/" c.

(** [p.name]: the last component, the empty string when there is none. *)
Definition name (p : t) : string :=
  match last p with
  | Some c => if is_root c then "" else c
  | None => ""
  end.

(** [p / s]: an absolute [s] replaces [p]. *)
Definition join (p : t) (s : string) : t :=
  let q := of_string s in
  match root_of s with
  | [] => (p ++ q)%list
  | _ => q
  end.

End Path.

Notation "p // s" := (Path.join p s) (at level 40, left associativity).

(** ** HTTP responses, as [requests] hands them over *)

(** A [requests.Response]. [headers] is the store of a [CaseInsensitiveDict]:
    the lower-cased header name maps to the name as sent and the value.
    [history] holds the responses of the redirects that were followed,
    oldest first. *)
#[local] Unset Elimination Schemes.
Inductive Response : Type := mkResponse {
  status_code : Z;
  url : string;
  headers : gmap string (string * string);
  content : list byte;
  history : list Response
}.
#[local] Set Elimination Schemes.

(** [response.ok]: [raise_for_status()] does not raise. *)
Definition ok (r : Response) : bool :=
  negb ((400 <=? status_code r)%Z && (status_code r <? 600)%Z).

(** [key in d] and [d[key]] on a [CaseInsensitiveDict]. *)
Definition ci_in (key : string) (d : gmap string (string * string)) : bool :=
  bool_decide (is_Some (d !! Str.lower key)).

Definition ci_getitem (key : string) (d : gmap string (string * string))
  : result string :=
  match d !! Str.lower key with
  | Some kv => Ok kv.2
  | None => Raise (Exn "KeyError" key)
  end.

(** The expression ['filename=(.+)'] of [_get_response_filename]. *)
Definition FILENAME_PATTERN : Re.regex :=
  Re.Cat (Re.Lit "filename=") (Re.Group (Re.Plus Re.Dot)).

(** [l[0]] *)
Definition getitem0 {A : Type} (l : list A) : result A :=
  match l with
  | x :: _ => Ok x
  | [] => Raise (Exn "IndexError" "list index out of range")
  end.

Definition rbind {A B : Type} (m : result A) (k : A -> result B) : result B :=
  match m with
  | Ok a => k a
  | Raise e => Raise e
  end.

(** [fname.strip().strip(",").strip(dq)], with [dq] the double quote. *)
Definition trimmed (fname : string) : string :=
  Str.strip (Str.one_of (String dquote ""))
    (Str.strip (Str.one_of ",") (Str.strip Str.is_space fname)).

(** The [try] block of [_get_response_filename]. The value of the chained
    [strip] calls is computed and dropped: [fname] is not assigned again. *)
Definition response_filename_try (response : Response) : result string :=
  let key := "Content-Disposition" in
  rbind (if ci_in key (headers response) then ci_getitem key (headers response)
         else if ci_in (Str.lower key) (headers response)
              then ci_getitem (Str.lower key) (headers response)
              else Raise (Exn "KeyError" ("No field '" +:+ key +:+ "'")))
    (fun content =>
  rbind (getitem0 (Re.findall FILENAME_PATTERN content))
    (fun fname =>
  let _ := trimmed fname in
  Ok fname)).

Definition _get_response_filename (response : Response) : string :=
  match response_filename_try response with
  | Ok fname => fname
  | Raise _ => Path.name (Path.of_string (url response))
  end.

(** ** The world: files, the calls made to the outside, the console

    [files] maps the path of every regular file to its bytes; directories
    are implicit, and none of them is named like a marker or a manifest.
    [trace] records, in order, every request sent and every file-system
    call made. *)

Inductive event : Type :=
| EvGet (url : string)          (* [requests.get(url)] *)
| EvOpenW (p : Path.t)          (* [open(p, "wb")] *)
| EvWrite (p : Path.t)          (* [f.write(data)] and the closing flush *)
| EvTouch (p : Path.t)          (* [p.touch()] *)
| EvOpenR (p : Path.t)          (* [open(p, "rt")] and [f.read()] *)
| EvMkdir (p : Path.t).         (* [p.mkdir(exist_ok=True, parents=True)] *)

Record World : Type := mkWorld {
  files : gmap Path.t (list byte);
  trace : list event;
  stdout : list string
}.

(** What the program cannot decide: the answer of the network to a request,
    given everything that happened before it, and whether a file-system call
    fails (the trace then ends with the call that is being made). *)
Record Env : Type := mkEnv {
  http_get : list event -> string -> result Response;
  io_error : list event -> option exn
}.

Definition set_files (f : gmap Path.t (list byte)) (w : World) : World :=
  mkWorld f (trace w) (stdout w).

Definition log (e : event) (w : World) : World :=
  mkWorld (files w) (trace w ++ [e]) (stdout w).

(** ** Computations: a state and exception monad over the world.
    A raised exception keeps the effects made before it. *)

Definition M (A : Type) : Type := World -> result A * World.

#[global] Instance M_ret : MRet M := fun A a w => (Ok a, w).

#[global] Instance M_bind : MBind M := fun A B k m w =>
  match m w with
  | (Ok a, w') => k a w'
  | (Raise e, w') => (Raise e, w')
  end.

Definition raise {A : Type} (e : exn) : M A := fun w => (Raise e, w).

(** [try: m  except Exception as e: h e] *)
Definition try_except {A : Type} (m : M A) (h : exn -> M A) : M A := fun w =>
  match m w with
  | (Ok a, w') => (Ok a, w')
  | (Raise e, w') => h e w'
  end.

Definition lift {A : Type} (r : result A) : M A := fun w => (r, w).

Definition print (line : string) : M unit := fun w =>
  (Ok tt, mkWorld (files w) (trace w) (stdout w ++ [line])).

(** A file-system call: it is logged, fails if the environment says so, and
    otherwise changes the files by [effect]. *)
Definition syscall (env : Env) (e : event)
    (effect : gmap Path.t (list byte) -> gmap Path.t (list byte)) : M unit :=
  fun w =>
    let w1 := log e w in
    match io_error env (trace w1) with
    | Some err => (Raise err, w1)
    | None => (Ok tt, set_files (effect (files w1)) w1)
    end.

(** [open(p, "wb")] creates the file or empties it. *)
Definition open_wb (env : Env) (p : Path.t) : M unit :=
  syscall env (EvOpenW p) (fun fs => <[p := []]> fs).

(** [f.write(data)], taken as all or nothing: what part of the data a
    write that fails has left in the file is not modelled. *)
Definition write (env : Env) (p : Path.t) (data : list byte) : M unit :=
  syscall env (EvWrite p) (fun fs => <[p := data]> fs).

(** [p.touch()] creates an empty file unless one is there. *)
Definition touch (env : Env) (p : Path.t) : M unit :=
  syscall env (EvTouch p)
    (fun fs => match fs !! p with Some _ => fs | None => <[p := []]> fs end).

Definition mkdir (env : Env) (p : Path.t) : M unit :=
  syscall env (EvMkdir p) (fun fs => fs).

(** [with open(p, "rt") as f: f.read()] on a path. The bytes are handed
    over as they are, which is what text mode does with ASCII text that
    holds no carriage return. *)
Definition read_text (env : Env) (p : Path.t) : M string :=
  syscall env (EvOpenR p) (fun fs => fs) ;;
  ((fun w =>
      match files w !! p with
      | Some data => (Ok (string_of_list_byte data), w)
      | None => (Raise (Exn "FileNotFoundError" "No such file or directory"), w)
      end) : M string).

(** [requests.get(url)] *)
Definition requests_get (env : Env) (url : string) : M Response := fun w =>
  (http_get env (trace w) url, log (EvGet url) w).

(** ** Globbing

    [Path.glob] looks at the directory when its result is iterated and
    yields nothing for a directory that is missing. A directory that
    exists is taken to be one that can be listed: for one that cannot,
    [Path.glob] yields nothing or raises [PermissionError], which is not
    modelled. A listing here is in the order of the keys of [files], which
    need not be the order of a directory walk: what depends on the order
    is stated for a listing that is given. *)

Inductive gtok : Type :=
| GChr (c : ascii)
| GStar.                 (* [*]: any run of characters of one component *)

Fixpoint glob_match (pat : list gtok) (s : string) : bool :=
  match pat with
  | [] => String.eqb s ""
  | GChr c :: pat' =>
      match s with
      | String d s' => Ascii.eqb c d && glob_match pat' s'
      | EmptyString => false
      end
  | GStar :: pat' =>
      (fix any (s : string) : bool :=
         glob_match pat' s ||
         match s with
         | String _ s' => any s'
         | EmptyString => false
         end) s
  end.

(** The pattern [@*.txt]. *)
Definition MARKER_GLOB : list gtok :=
  [GChr "@"; GStar; GChr "."; GChr "t"; GChr "x"; GChr "t"].

Definition child_matches (dir : Path.t) (pat : list gtok) (p : Path.t) : bool :=
  match last p with
  | Some n => bool_decide (p = (dir ++ [n])%list) && glob_match pat n
  | None => false
  end.

(** [dir.glob(pat)] for a pattern of one component: the files directly
    inside [dir] whose name matches. *)
Definition glob (w : World) (dir : Path.t) (pat : list gtok) : list Path.t :=
  List.filter (child_matches dir pat) (fst <$> map_to_list (files w)).

(** [dir.glob("**/" + name)]: the files called [name] anywhere below [dir]. *)
Definition rglob (w : World) (dir : Path.t) (name : string) : list Path.t :=
  List.filter
    (fun p => bool_decide (dir `prefix_of` p) && bool_decide (last p = Some name)
              && negb (bool_decide (p = dir)))
    (fst <$> map_to_list (files w)).

(** ** The cache ledger and the downloader *)

Definition _is_cached (w : World) (download_dir : Path.t) (url : string) : bool :=
  let cached_name := _ckpt_filename url in
  let all_cached_files := Path.name <$> glob w download_dir MARKER_GLOB in
  bool_decide (cached_name ∈ all_cached_files).

Definition requested_url_of (response : Response) : string :=
  match history response with
  | first :: _ => url first
  | [] => url response
  end.

Definition _cache_dependency (env : Env) (download_dir : Path.t)
    (response : Response) : M unit :=
  let cache_file := download_dir // _get_response_filename response in
  open_wb env cache_file ;;
  write env cache_file (content response) ;;
  let requested_url := requested_url_of response in
  let dep_ckpt_filename := _ckpt_filename requested_url in
  let dep_ckpt_file := download_dir // dep_ckpt_filename in
  touch env dep_ckpt_file.

(** ** The batch loop *)

Record TensorflowRepo : Type := mkRepo {
  _tf_dir : Path.t;
  _tf_version : string
}.

(** The local variables of [_download_urls]. *)
Record tally : Type := mkTally {
  failed_downloads : list string;
  num_skipped : nat;
  num_success : nat
}.

Definition str_of_nat (n : nat) : string := Str.of_Z (Z.of_nat n).

(** The statements of the [try] block that act on the world: the request,
    then the payload and the marker, or the exception for a bad status. *)
Definition fetch (env : Env) (download_dir : Path.t) (url : string) : M unit :=
  response ← requests_get env url;
  if ok response then
    _cache_dependency env download_dir response
  else
    raise (Exn "Exception"
             ("Status code " +:+ Str.of_Z (status_code response)
                +:+ " for " +:+ url +:+ ".")).

(** The [except Exception as e] block. *)
Definition on_failure (t : tally) (url : string) (e : exn) : M tally :=
  print (exn_msg e) ;;
  print ("FAILURE: " +:+ url) ;;
  mret (mkTally (failed_downloads t ++ [url]) (num_skipped t) (num_success t)).

(** The body of [for url in tqdm(urls_to_download)]. *)
Definition download_one (env : Env) (download_dir : Path.t) (t : tally)
    (url : string) : M tally := fun w =>
  if _is_cached w download_dir url then
    (Ok (mkTally (failed_downloads t) (num_skipped t + 1) (num_success t)), w)
  else
    try_except
      (fetch env download_dir url ;;
       mret (mkTally (failed_downloads t) (num_skipped t) (num_success t + 1)))
      (on_failure t url)
      w.

Fixpoint for_each (env : Env) (download_dir : Path.t) (urls : list string)
    (t : tally) : M tally :=
  match urls with
  | [] => mret t
  | url :: rest =>
      t' ← download_one env download_dir t url;
      for_each env download_dir rest t'
  end.

(** The lines printed once the loop is over. *)
Definition report (self : TensorflowRepo) (t : tally) : M unit :=
  print ("Completed downloads for tensorflow==" +:+ _tf_version self +:+ ".") ;;
  (if bool_decide (failed_downloads t = [])
   then mret tt
   else print "Failed downloads" ;;
        print (Str.join (String Re.newline (String (ascii_of_nat 9) ""))
                 (failed_downloads t))) ;;
  print (str_of_nat (length (failed_downloads t)) +:+ " dependency downloads failed.") ;;
  print (str_of_nat (num_skipped t) +:+ " dependency downloads skipped.") ;;
  print (str_of_nat (num_success t) +:+ " dependency downloads completed.").

Definition _download_urls (env : Env) (self : TensorflowRepo)
    (download_dir : Path.t) (urls_to_download : list string) : M unit :=
  t ← for_each env download_dir urls_to_download (mkTally [] 0 0);
  report self t.

(** ** Discovery *)

Definition _get_files_listing_deps (self : TensorflowRepo) : M (list Path.t) :=
  fun w => (Ok (rglob w (_tf_dir self) "workspace.bzl"), w).

Definition _get_deps_from_file (env : Env) (file : Path.t) : M (list string) :=
  contents ← read_text env file;
  mret (_extract_dependency_urls contents true).

Fixpoint collect_deps (env : Env) (files_with_deps : list Path.t)
    (urls : list string) : M (list string) :=
  match files_with_deps with
  | [] => mret urls
  | file :: rest =>
      found ← _get_deps_from_file env file;
      collect_deps env rest (urls ++ found)%list
  end.

Definition _get_dependency_urls (env : Env) (self : TensorflowRepo)
  : M (list string) :=
  files_with_deps ← _get_files_listing_deps self;
  print ("Found " +:+ str_of_nat (length files_with_deps)
           +:+ " files containing dependencies.") ;;
  collect_deps env files_with_deps [].

Definition download_build_dependencies (env : Env) (self : TensorflowRepo)
    (download_dir : Path.t) : M unit :=
  urls ← _get_dependency_urls env self;
  print ("Found " +:+ str_of_nat (length urls) +:+ " dependency urls.") ;;
  _download_urls env self download_dir urls.

(** ** The constructor and [main] *)

(** The values [get_tf_version] handles: [Path.glob] returns a generator,
    which looks at no file until it is iterated. *)
Inductive pyobj : Type :=
| PyStr (s : string)
| PyPath (p : Path.t)
| PyGenerator (dir : Path.t) (pattern : string).

(** [p.glob(pattern)] *)
Definition Path_glob (p : Path.t) (pattern : string) : pyobj :=
  PyGenerator p pattern.

(** [with open(file, "rt") as f: f.read()]: the builtin [open] takes a
    [str] or a path and refuses anything else. *)
Definition open_rt (env : Env) (file : pyobj) : M string :=
  match file with
  | PyStr s => read_text env (Path.of_string s)
  | PyPath p => read_text env p
  | PyGenerator _ _ =>
      raise (Exn "TypeError"
               "expected str, bytes or os.PathLike object, not generator")
  end.

(** The names bound at the top level of [main.py]. A name used in a method
    body is a local, one of these, or a builtin: the attributes of the class
    are reached through [self] only. *)
Definition module_globals : list string :=
  ["argparse"; "hashlib"; "Path"; "tqdm"; "re"; "requests";
   "TensorflowRepo"; "main"; "parser"; "args"].

Definition load_global (name : string) : M unit :=
  if bool_decide (name ∈ module_globals) then mret tt
  else raise (Exn "NameError" ("name '" +:+ name +:+ "' is not defined")).

(** What follows the [with] block of [get_tf_version]: the f-string reads
    the bare name [SEMVER_PATTERN]; [re.findall] is then called with the
    expression alone. *)
Definition get_tf_version_findall (contents : string) : M string :=
  load_global "SEMVER_PATTERN" ;;
  raise (Exn "TypeError"
           "findall() missing 1 required positional argument: 'string'").

Definition get_tf_version (env : Env) (tf_dir : Path.t) : M string :=
  let setup_py_file := Path_glob tf_dir "setup.py" in
  contents ← open_rt env setup_py_file;
  get_tf_version_findall contents.

(** [TensorflowRepo(tf_dir)] *)
Definition __init__ (env : Env) (tf_dir : Path.t) : M TensorflowRepo :=
  tf_version ← get_tf_version env tf_dir;
  mret (mkRepo tf_dir tf_version).

(** The namespace [argparse] returns: an option that was not given is [None]. *)
Record Args : Type := mkArgs {
  tensorflow_repo : option string;
  download_dir : option string
}.

(** [Path(a)] *)
Definition Path_new (a : option string) : M Path.t :=
  match a with
  | Some s => mret (Path.of_string s)
  | None =>
      raise (Exn "TypeError"
               "expected str, bytes or os.PathLike object, not NoneType")
  end.

Definition main (env : Env) (args : Args) : M unit :=
  tf_dir ← Path_new (tensorflow_repo args);
  download_dir ← Path_new (download_dir args);
  mkdir env download_dir ;;
  tf_repo ← __init__ env tf_dir;
  download_build_dependencies env tf_repo download_dir.

(** ** The extractor as the specification words it

    A double-quoted string beginning with [https://]: an opening double
    quote, [https://], and the characters up to the next double quote on the
    line; a comma may follow. The strings are listed as they occur in the
    text, duplicates included, and the mirror entries are then removed. *)

Module Spec.

(** The characters before the next double quote of the line, and the text
    after that quote. *)
Fixpoint until_quote (s : string) : option (string * string) :=
  match s with
  | EmptyString => None
  | String c s' =>
      if Ascii.eqb c dquote then Some (EmptyString, s')
      else if Ascii.eqb c Re.newline then None
      else match until_quote s' with
           | Some (body, rest) => Some (String c body, rest)
           | None => None
           end
  end.

Fixpoint strip_prefix (p s : string) : option string :=
  match p, s with
  | EmptyString, _ => Some s
  | String a p', String b s' => if Ascii.eqb a b then strip_prefix p' s' else None
  | String _ _, EmptyString => None
  end.

Definition skip_comma (s : string) : string :=
  match s with
  | String c s' => if Ascii.eqb c "," then s' else s
  | EmptyString => s
  end.

(** The quoted string that opens at the start of [s], if one does, and the
    text after it. *)
Definition quoted_https_here (s : string) : option (string * string) :=
  match strip_prefix (String dquote "https://") s with
  | Some s1 =>
      match until_quote s1 with
      | Some (body, rest) => Some ("https://" +:+ body, skip_comma rest)
      | None => None
      end
  | None => None
  end.

Fixpoint quoted_https_from (s : string) (skip : nat) : list string :=
  match s with
  | EmptyString => []
  | String _ s' =>
      match skip with
      | S k => quoted_https_from s' k
      | O =>
          match quoted_https_here s with
          | Some (u, rest) =>
              u :: quoted_https_from s' (String.length s - String.length rest - 1)
          | None => quoted_https_from s' 0
          end
      end
  end.

Definition quoted_https_strings (text : string) : list string :=
  quoted_https_from text 0.

Definition names_mirror (u : string) : Prop :=
  (exists a b, u = a +:+ "mirror.bazel.build" +:+ b) \/
  (exists a b, u = a +:+ "mirror.tensorflow.org" +:+ b).

End Spec.

(** ** Inputs used in the examples *)

(** [s] between double quotes. *)
Definition quoted (s : string) : string := String dquote (s +:+ String dquote "").

(** A manifest line that lists two URLs. *)
Definition two_urls_on_one_line : string :=
  "urls = [" +:+ quoted "https://a.com/x.tar.gz" +:+ ", "
             +:+ quoted "https://b.org/y.zip" +:+ "],".

Definition archive_and_mirror_on_one_line : string :=
  "tar_archive(url = " +:+ quoted "https://example.com/pkg.tar.gz" +:+ ") "
     +:+ quoted "https://mirror.bazel.build/pkg.tar.gz".

Definition archive_then_mirror : string :=
  "tar_archive(url = " +:+ quoted "https://example.com/pkg.tar.gz" +:+ ")"
     +:+ String Re.newline (quoted "https://mirror.bazel.build/pkg.tar.gz").

(** A response that names its file in a quoted [filename=] parameter. *)
Definition disposition_response : Response :=
  mkResponse 200 "https://example.com/download?id=7"
    {[ "content-disposition" :=
         ("Content-Disposition", "attachment; filename=" +:+ quoted "pkg.tar.gz") ]}
    [] [].

Definition example_url : string := "https://example.com/pkg.tar.gz".
Definition missing_url : string := "https://example.com/missing.zip".
Definition other_url : string := "https://example.org/next.whl".

Definition cache_dir : Path.t := ["/"; "cache"].

(** No file, no call made, nothing printed. *)
Definition empty_world : World := mkWorld ∅ [] [].

Definition example_body : list byte := Str.encode "archive".

(** The answer 200 to a request for [u], without redirect or file name. *)
Definition plain_response (u : string) : Response :=
  mkResponse 200 u ∅ example_body [].

(** A network that serves every URL, on a disk that never fails. *)
Definition serving_env : Env :=
  mkEnv (fun _ u => Ok (plain_response u)) (fun _ => None).

(** The same network, except that [missing_url] is answered 500. *)
Definition flaky_env : Env :=
  mkEnv (fun _ u => if String.eqb u missing_url
                    then Ok (mkResponse 500 u ∅ [] [])
                    else Ok (plain_response u))
        (fun _ => None).







(** The world a computation leaves behind. *)
Definition world_after {A : Type} (m : M A) (w : World) : World := (m w).2.

(** ** Observations on a run *)

(** The URLs requested so far, in order. *)
Definition requests_sent (w : World) : list string :=
  omap (fun e => match e with EvGet u => Some u | _ => None end) (trace w).

(** Where [_cache_dependency] stores the body of a response, and where the
    marker of a URL lies. *)
Definition payload_file (dir : Path.t) (r : Response) : Path.t :=
  dir // _get_response_filename r.

Definition marker_file (dir : Path.t) (url : string) : Path.t :=
  dir // _ckpt_filename url.

(** The world once [lines] have been printed. *)
Definition printed (lines : list string) (w : World) : World :=
  mkWorld (files w) (trace w) (stdout w ++ lines).

(** No file of [before] is missing in [after]. *)
Definition keeps_files (before after : World) : Prop :=
  forall p, is_Some (files before !! p) -> is_Some (files after !! p).

(** The sum of the three counts of a tally. *)
Definition accounted (t : tally) : nat :=
  num_skipped t + num_success t + length (failed_downloads t).

(** The three lines that close the report. *)
Definition final_counters (t : tally) : list string :=
  [str_of_nat (length (failed_downloads t)) +:+ " dependency downloads failed.";
   str_of_nat (num_skipped t) +:+ " dependency downloads skipped.";
   str_of_nat (num_success t) +:+ " dependency downloads completed."].

(** [after] differs from [before] by at most one [mkdir] call. *)
Definition mkdir_only (before after : World) : Prop :=
  files after = files before /\ stdout after = stdout before /\
  (trace after = trace before \/
   exists p, trace after = (trace before ++ [EvMkdir p])%list).

(** ** Lines of a text *)

(** The characters of [s] before its first newline, and the text from that
    newline on. *)
Fixpoint first_line (s : string) : string :=
  match s with
  | EmptyString => EmptyString
  | String c s' =>
      if Ascii.eqb c Re.newline then EmptyString else String c (first_line s')
  end.

Fixpoint after_line (s : string) : string :=
  match s with
  | EmptyString => EmptyString
  | String c s' => if Ascii.eqb c Re.newline then s else after_line s'
  end.

(** The number of lines of [s]: one more than its newlines. *)
Fixpoint count_lines (s : string) : nat :=
  match s with
  | EmptyString => 1
  | String c s' =>
      if Ascii.eqb c Re.newline then S (count_lines s') else count_lines s'
  end.

(** The last double quote of the first line of [s]: what stands before it,
    and the text after it. *)
Fixpoint last_quote (s : string) : option (string * string) :=
  match s with
  | EmptyString => None
  | String c s' =>
      if Ascii.eqb c Re.newline then None
      else match last_quote s' with
           | Some (body, rest) => Some (String c body, rest)
           | None => if Ascii.eqb c dquote then Some (EmptyString, s') else None
           end
  end.

(** ** Manifests on disk *)


(** The URLs a manifest file lists, as the extractor reads them. *)
Definition manifest_urls (w : World) (p : Path.t) : list string :=
  match files w !! p with
  | Some data => _extract_dependency_urls (string_of_list_byte data) true
  | None => []
  end.

(** A source tree with one manifest, which lists an archive and its mirror. *)
Definition tf_root : Path.t := ["/"; "tf"].

Definition manifest_path : Path.t := ["/"; "tf"; "third_party"; "workspace.bzl"].

Definition tree_world : World :=
  mkWorld {[ manifest_path := Str.encode archive_then_mirror ]} [] [].

(** A disk on which no file can be opened for reading. *)
Definition permission_denied : exn := Exn "PermissionError" "[Errno 13] Permission denied".

Definition unreadable (tr : list event) : option exn :=
  match last tr with
  | Some (EvOpenR _) => Some permission_denied
  | _ => None
  end.

Definition unreadable_env : Env :=
  mkEnv (fun _ u => Ok (plain_response u)) unreadable.

(** Two archives of different projects under one file name. *)
Definition first_archive_url : string := "https://github.com/a/a/archive/v1.0.tar.gz".
Definition second_archive_url : string := "https://github.com/b/b/archive/v1.0.tar.gz".

Definition first_archive : Response :=
  mkResponse 200 first_archive_url ∅ (Str.encode "project a") [].

Definition second_archive : Response :=
  mkResponse 200 second_archive_url ∅ (Str.encode "project b") [].

(** A response whose [filename=] parameter is an absolute path. *)
Definition absolute_name_response : Response :=
  mkResponse 200 example_url
    {[ "content-disposition" :=
         ("Content-Disposition", "attachment; filename=/etc/cron.d/job") ]}
    example_body [].

(** ** More servers and disks *)








(** A URL whose last segment is [..]. *)
Definition parent_url : string := "https://example.com/a/..".



Definition mirror_only_world : World :=
  mkWorld {[ manifest_path := Str.encode (quoted "https://mirror.bazel.build/pkg.tar.gz") ]}
    [] [].
(** * Facts about strings *)

Lemma prefix_split (p s : string) :
  String.prefix p s = true <-> exists b, s = p +:+ b.
Proof.
  revert s. induction p as [|c p IH]; intros s.
  - split; [intros _; exists s; reflexivity | destruct s; reflexivity].
  - destruct s as [|d s]; [split; [discriminate | intros [b Hb]; discriminate] |].
    cbn [String.prefix]. destruct (ascii_dec c d) as [->|Hne].
    + rewrite IH. split; intros [b Hb]; exists b; [cbn; now rewrite Hb | now inversion Hb].
    + split; [discriminate | intros [b Hb]; cbn in Hb; injection Hb as H1 H2; symmetry in H1; contradiction].
Qed.

Lemma contains_substring (needle hay : string) :
  Str.contains needle hay = true <-> exists a b, hay = a +:+ needle +:+ b.
Proof.
  induction hay as [|c hay IH]; cbn [Str.contains].
  - rewrite orb_false_r, prefix_split. split.
    + intros [b Hb]. exists "", b. exact Hb.
    + intros [a [b Hab]]. destruct a; [exists b; exact Hab | discriminate].
  - rewrite orb_true_iff, IH, prefix_split. split.
    + intros [[b Hb] | [a [b Hab]]].
      * exists "", b. exact Hb.
      * exists (String c a), b. cbn. now rewrite Hab.
    + intros [a [b Hab]]. destruct a as [|x a]; cbn in Hab.
      * left. exists b. exact Hab.
      * right. exists a, b. now inversion Hab.
Qed.

Lemma is_mirror_url_names_mirror (u : string) :
  _is_mirror_url u = true <-> Spec.names_mirror u.
Proof.
  unfold _is_mirror_url, Spec.names_mirror.
  now rewrite orb_true_iff, !contains_substring.
Qed.

(** C2. Mirror filtering: whatever the text, no URL the extractor returns
    contains [mirror.bazel.build] or [mirror.tensorflow.org] as a substring,
    and a match of the URL expression is returned exactly when it contains
    neither: a match that names a mirror is dropped, nothing replaces it. *)
Theorem extractor_drops_mirror_urls (contents : string) :
  Forall (fun u => ~ Spec.names_mirror u) (_extract_dependency_urls contents true) /\
  (forall u, u ∈ _extract_dependency_urls contents true <->
             u ∈ Re.findall DEPENDENCY_URL_PATTERN contents /\ ~ Spec.names_mirror u) /\
  _extract_dependency_urls contents true
    `sublist_of` Re.findall DEPENDENCY_URL_PATTERN contents.
Proof.
  assert (Hiff : forall u, negb (_is_mirror_url u) = true <-> ~ Spec.names_mirror u).
  { intros u. rewrite <- is_mirror_url_names_mirror.
    destruct (_is_mirror_url u); simpl; split; intros H; congruence. }
  unfold _extract_dependency_urls. split; [|split].
  - apply Forall_forall. intros u Hu. apply list_elem_of_filter in Hu. apply Hiff, Hu.
  - intros u. rewrite list_elem_of_filter, Hiff. tauto.
  - apply sublist_filter.
Qed.

(** C4. URL extraction, where the code departs from it. The greedy [.*] of
    [DEPENDENCY_URL_PATTERN] runs to the last double quote of the line, so a
    line that lists two URLs yields one string, which holds both and the
    quotes and comma between them; the strings between double quotes that
    begin with [https://] are two. With the archive and its mirror entry on
    one line the merged string names the mirror and is dropped: nothing is
    returned. With the two on separate lines the result is the archive URL
    alone. *)
Theorem extractor_merges_urls_of_one_line :
  _extract_dependency_urls two_urls_on_one_line true
    = ["https://a.com/x.tar.gz" +:+ String dquote ", " +:+ String dquote "https://b.org/y.zip"] /\
  Spec.quoted_https_strings two_urls_on_one_line
    = ["https://a.com/x.tar.gz"; "https://b.org/y.zip"] /\
  _extract_dependency_urls archive_and_mirror_on_one_line true = [] /\
  _extract_dependency_urls archive_then_mirror true = ["https://example.com/pkg.tar.gz"].
Proof. repeat split; vm_compute; reflexivity. Qed.

(** C9. Payload file name, where the code departs from it. The value of
    [fname.strip().strip(",").strip(dq)] is dropped, so the name taken from a
    [Content-Disposition] header keeps what surrounds it: for a quoted
    [filename=] parameter the file name begins and ends with a double quote,
    where the trimmed name has none. *)
Theorem response_filename_keeps_quotes :
  _get_response_filename disposition_response = quoted "pkg.tar.gz" /\
  trimmed (quoted "pkg.tar.gz") = "pkg.tar.gz".
Proof. split; vm_compute; reflexivity. Qed.

(** * The monad and the system calls *)

Lemma run_bind {A B : Type} (m : M A) (k : A -> M B) (w : World) :
  (m ≫= k) w =
    match m w with
    | (Ok a, w') => k a w'
    | (Raise e, w') => (Raise e, w')
    end.
Proof. reflexivity. Qed.

Lemma run_ret {A : Type} (a : A) (w : World) : (mret a : M A) w = (Ok a, w).
Proof. reflexivity. Qed.

Lemma run_raise {A : Type} (e : exn) (w : World) : (raise e : M A) w = (Raise e, w).
Proof. reflexivity. Qed.

Ltac mrun :=
  repeat first [ rewrite run_bind | rewrite run_ret | rewrite run_raise
               | progress (cbn beta iota) ].

Lemma syscall_cases (env : Env) (e : event)
    (effect : gmap Path.t (list byte) -> gmap Path.t (list byte)) (w : World) :
  (io_error env (trace w ++ [e]) = None /\
   syscall env e effect w =
     (Ok tt, mkWorld (effect (files w)) (trace w ++ [e]) (stdout w))) \/
  (exists err, io_error env (trace w ++ [e]) = Some err /\
   syscall env e effect w =
     (Raise err, mkWorld (files w) (trace w ++ [e]) (stdout w))).
Proof.
  unfold syscall. cbn. destruct (io_error env (trace w ++ [e])) as [err|]; eauto.
Qed.

(** C3. Whatever the source tree and the state of the world, the
    constructor raises, with no file read and nothing printed:
    [get_tf_version] hands the generator of [Path.glob] to [open], which
    raises [TypeError]. The statements after the [with] block would raise as
    well, whatever the file held: the name [SEMVER_PATTERN] is not defined.
    So [main] raises for every argument list, having done at most the
    [mkdir] of the download directory: [download_build_dependencies] is
    never reached. *)
Theorem constructor_always_raises (env : Env) :
  (forall tf_dir w, exists e,
     __init__ env tf_dir w = (Raise e, w) /\ exn_class e = "TypeError") /\
  (forall contents w, exists e,
     get_tf_version_findall contents w = (Raise e, w) /\ exn_class e = "NameError") /\
  (forall args w, exists e w', main env args w = (Raise e, w') /\ mkdir_only w w').
Proof.
  split; [|split].
  - intros tf_dir w. eexists. split; reflexivity.
  - intros contents w. eexists. split; reflexivity.
  - intros [[repo|] [dir|]] w; unfold main; cbn -[__init__ mkdir];
      try (eexists _, _; split; [reflexivity | unfold mkdir_only; eauto]).
    mrun. unfold mkdir.
    destruct (syscall_cases env (EvMkdir (Path.of_string dir)) (fun fs => fs) w)
      as [[_ ->] | [err [_ ->]]];
      mrun; eexists _, _; (split; [reflexivity | unfold mkdir_only; cbn; eauto]).
Qed.

(** * Marker names *)

Lemma append_cons (c : ascii) (a b : string) :
  String c a +:+ b = String c (a +:+ b).
Proof. reflexivity. Qed.

Lemma all_chars_app (p : ascii -> bool) (a b : string) :
  Str.all_chars p (a +:+ b) = Str.all_chars p a && Str.all_chars p b.
Proof.
  induction a as [|c a IH]; [reflexivity|].
  rewrite append_cons. cbn [Str.all_chars]. now rewrite IH, andb_assoc.
Qed.

Lemma split_without_separator (sep : ascii) (s : string) :
  Str.all_chars (fun c => negb (Ascii.eqb c sep)) s = true ->
  Str.split sep s = [s].
Proof.
  induction s as [|c s IH]; cbn; [reflexivity|].
  intros [Hc Hs]%andb_true_iff. apply negb_true_iff in Hc. rewrite Hc.
  now rewrite (IH Hs).
Qed.

Lemma le_bytes_range (n : nat) (x : Z) :
  Forall (fun b => (0 <= b < 256)%Z) (MD5.le_bytes n x).
Proof.
  revert x. induction n as [|n IH]; intros x; cbn; constructor.
  - apply Z.mod_pos_bound. lia.
  - apply IH.
Qed.

Lemma digest_range (data : list byte) :
  Forall (fun b => (0 <= b < 256)%Z) (MD5.digest data).
Proof.
  unfold MD5.digest.
  destruct (fold_left MD5.process _ MD5.init) as [[[a b] c] d].
  repeat (apply Forall_app; split); apply le_bytes_range.
Qed.

Lemma hex_digit_no_slash (n : Z) :
  (0 <= n < 16)%Z -> Ascii.eqb (MD5.hex_digit n) "/" = false.
Proof.
  intros Hn. rewrite <- (Z2Nat.id n) by lia.
  assert (Hk : (Z.to_nat n < 16)%nat) by lia.
  revert Hk. generalize (Z.to_nat n). intros k Hk.
  do 16 (destruct k as [|k]; [reflexivity|]). lia.
Qed.

Lemma hex_no_slash (bs : list Z) :
  Forall (fun b => (0 <= b < 256)%Z) bs ->
  Str.all_chars (fun c => negb (Ascii.eqb c "/")) (MD5.hex bs) = true.
Proof.
  induction 1 as [|b bs Hb _ IH]; cbn; [reflexivity|].
  rewrite !hex_digit_no_slash, IH; [reflexivity | |].
  - apply Z.mod_pos_bound. lia.
  - split; [apply Z.div_pos; lia | apply Z.div_lt_upper_bound; lia].
Qed.

Lemma ckpt_filename_shape (u : string) :
  _ckpt_filename u = String "@" (MD5.hexdigest (Str.encode u) +:+ ".txt").
Proof. reflexivity. Qed.

Lemma ckpt_filename_no_slash (u : string) :
  Str.all_chars (fun c => negb (Ascii.eqb c "/")) (_ckpt_filename u) = true.
Proof.
  rewrite ckpt_filename_shape. cbn [Str.all_chars].
  rewrite all_chars_app. unfold MD5.hexdigest.
  rewrite (hex_no_slash _ (digest_range _)). reflexivity.
Qed.

(** The marker name is a single path component. *)
Lemma path_of_ckpt_filename (u : string) :
  Path.of_string (_ckpt_filename u) = [_ckpt_filename u] /\
  Path.root_of (_ckpt_filename u) = [].
Proof.
  unfold Path.of_string.
  rewrite (split_without_separator _ _ (ckpt_filename_no_slash u)).
  rewrite ckpt_filename_shape. split; reflexivity.
Qed.

Lemma join_ckpt_filename (dir : Path.t) (u : string) :
  dir // _ckpt_filename u = (dir ++ [_ckpt_filename u])%list.
Proof.
  unfold Path.join. destruct (path_of_ckpt_filename u) as [-> ->]. reflexivity.
Qed.

Lemma glob_star_suffix (pat : list gtok) (a b : string) :
  glob_match pat b = true -> glob_match (GStar :: pat) (a +:+ b) = true.
Proof.
  intros Hb. induction a as [|c a IH].
  - change ("" +:+ b) with b. cbn. destruct b; cbn in *; now rewrite Hb.
  - rewrite append_cons. cbn in *. rewrite IH. apply orb_true_r.
Qed.

Lemma glob_match_chr (c d : ascii) (pat : list gtok) (s : string) :
  glob_match (GChr c :: pat) (String d s) = Ascii.eqb c d && glob_match pat s.
Proof. reflexivity. Qed.

Lemma ckpt_filename_matches_glob (u : string) :
  glob_match MARKER_GLOB (_ckpt_filename u) = true.
Proof.
  rewrite ckpt_filename_shape. unfold MARKER_GLOB.
  rewrite glob_match_chr, Ascii.eqb_refl. cbn [andb].
  apply glob_star_suffix. reflexivity.
Qed.

Lemma name_of_ckpt_file (dir : Path.t) (u : string) :
  Path.name (dir ++ [_ckpt_filename u])%list = _ckpt_filename u.
Proof. unfold Path.name. rewrite last_snoc. reflexivity. Qed.

(** [_is_cached] looks for one file: the marker directly inside the directory. *)
Lemma is_cached_iff (w : World) (dir : Path.t) (u : string) :
  _is_cached w dir u = true <->
  is_Some (files w !! (dir ++ [_ckpt_filename u])%list).
Proof.
  unfold _is_cached. rewrite bool_decide_eq_true, list_elem_of_fmap. split.
  - intros (p & Hname & Hp). unfold glob in Hp.
    apply list_elem_of_In, filter_In in Hp. destruct Hp as [Hp Hm].
    apply list_elem_of_In, list_elem_of_fmap in Hp. destruct Hp as ([p' data] & -> & Hp).
    apply elem_of_map_to_list in Hp. cbn in *.
    unfold child_matches in Hm. destruct (last p') as [n|] eqn:Hl; [|discriminate].
    apply andb_true_iff in Hm. destruct Hm as [Hm _]. apply bool_decide_eq_true in Hm.
    subst p'. unfold Path.name in Hname. rewrite last_snoc in Hname.
    destruct (Path.is_root n); [discriminate|]. subst n. eauto.
  - intros [data Hd]. exists (dir ++ [_ckpt_filename u])%list.
    split; [now rewrite name_of_ckpt_file|].
    unfold glob. apply list_elem_of_In, filter_In. split.
    + apply list_elem_of_In, list_elem_of_fmap. exists (dir ++ [_ckpt_filename u], data)%list.
      split; [reflexivity|]. now apply elem_of_map_to_list.
    + unfold child_matches. rewrite last_snoc, ckpt_filename_matches_glob.
      rewrite bool_decide_eq_true_2; reflexivity.
Qed.

(** * The downloader *)

Lemma requests_sent_log (e : event) (w : World) :
  requests_sent (log e w) =
    (requests_sent w ++ match e with EvGet u => [u] | _ => [] end)%list.
Proof.
  unfold requests_sent, log. cbn [trace]. rewrite omap_app. now destruct e.
Qed.

(** What [_cache_dependency] leaves behind, by the call that failed. *)
Lemma cache_dependency_cases (env : Env) (dir : Path.t) (r : Response) (w : World) :
  let cf := dir // _get_response_filename r in
  let mk := (dir ++ [_ckpt_filename (requested_url_of r)])%list in
  exists res w',
    _cache_dependency env dir r w = (res, w') /\
    stdout w' = stdout w /\ requests_sent w' = requests_sent w /\
    ((res = Ok tt /\
      files w' = match <[cf := content r]> (files w) !! mk with
                 | Some _ => <[cf := content r]> (files w)
                 | None => <[mk := []]> (<[cf := content r]> (files w))
                 end /\
      trace w' = (trace w ++ [EvOpenW cf; EvWrite cf; EvTouch mk])%list) \/
     (exists e, res = Raise e /\
        (files w' = files w \/ files w' = <[cf := []]> (files w) \/
         files w' = <[cf := content r]> (files w)))).
Proof.
  intros cf mk. unfold _cache_dependency. rewrite join_ckpt_filename.
  fold cf mk. unfold open_wb, write, touch.
  rewrite run_bind.
  destruct (syscall_cases env (EvOpenW cf) (fun fs => <[cf := []]> fs) w)
    as [[_ ->] | [err [_ ->]]].
  2:{ eexists _, _. split; [reflexivity|]. cbn. unfold requests_sent. cbn.
      rewrite omap_app. cbn. rewrite app_nil_r. eauto 10. }
  rewrite run_bind.
  match goal with |- context [syscall env ?e ?f ?w1] =>
    destruct (syscall_cases env e f w1) as [[_ ->] | [err [_ ->]]] end.
  2:{ eexists _, _. split; [reflexivity|]. cbn. unfold requests_sent. cbn.
      rewrite <- !app_assoc, omap_app. cbn. rewrite app_nil_r. eauto 10. }
  cbn [files trace stdout].
  match goal with |- context [syscall env ?e ?f ?w1] =>
    destruct (syscall_cases env e f w1) as [[_ ->] | [err [_ ->]]] end.
  - eexists _, _. split; [reflexivity|]. cbn. unfold requests_sent. cbn.
    rewrite <- !app_assoc, omap_app. cbn. rewrite app_nil_r, insert_insert_eq.
    split; [reflexivity|]. split; [reflexivity|]. left. eauto.
  - eexists _, _. split; [reflexivity|]. cbn. unfold requests_sent. cbn.
    rewrite <- !app_assoc, omap_app. cbn. rewrite app_nil_r, insert_insert_eq.
    eauto 10.
Qed.

Lemma marker_file_snoc (dir : Path.t) (u : string) :
  marker_file dir u = (dir ++ [_ckpt_filename u])%list.
Proof. apply join_ckpt_filename. Qed.

Lemma is_cached_marker_file (w : World) (dir : Path.t) (u : string) :
  _is_cached w dir u = true <-> is_Some (files w !! marker_file dir u).
Proof. rewrite marker_file_snoc. apply is_cached_iff. Qed.


Lemma keeps_files_refl (w : World) : keeps_files w w.
Proof. intros p H. exact H. Qed.

Lemma keeps_files_trans (w1 w2 w3 : World) :
  keeps_files w1 w2 -> keeps_files w2 w3 -> keeps_files w1 w3.
Proof. intros H1 H2 p H. apply H2, H1, H. Qed.

Lemma keeps_files_cached (w w' : World) (dir : Path.t) (u : string) :
  keeps_files w w' -> _is_cached w dir u = true -> _is_cached w' dir u = true.
Proof. rewrite !is_cached_marker_file. intros H. apply H. Qed.

Lemma fetch_get_raises (env : Env) (dir : Path.t) (u : string) (w : World) (e : exn) :
  http_get env (trace w) u = Raise e ->
  fetch env dir u w = (Raise e, log (EvGet u) w).
Proof. intros H. unfold fetch, requests_get. rewrite run_bind, H. reflexivity. Qed.

Lemma fetch_bad_status (env : Env) (dir : Path.t) (u : string) (w : World) (r : Response) :
  http_get env (trace w) u = Ok r -> ok r = false ->
  fetch env dir u w =
    (Raise (Exn "Exception"
              ("Status code " +:+ Str.of_Z (status_code r) +:+ " for " +:+ u +:+ ".")),
     log (EvGet u) w).
Proof.
  intros H Hok. unfold fetch, requests_get. rewrite run_bind, H. cbn beta iota.
  rewrite Hok. reflexivity.
Qed.

Lemma fetch_good_status (env : Env) (dir : Path.t) (u : string) (w : World) (r : Response) :
  http_get env (trace w) u = Ok r -> ok r = true ->
  fetch env dir u w = _cache_dependency env dir r (log (EvGet u) w).
Proof.
  intros H Hok. unfold fetch, requests_get. rewrite run_bind, H. cbn beta iota.
  rewrite Hok. reflexivity.
Qed.

(** A successful [_cache_dependency]: the payload, then the marker. *)
Lemma cache_dependency_ok (env : Env) (dir : Path.t) (r : Response) (w w' : World) :
  _cache_dependency env dir r w = (Ok tt, w') ->
  is_Some (files w' !! marker_file dir (requested_url_of r)) /\
  is_Some (files w' !! payload_file dir r) /\
  (forall p, p <> payload_file dir r -> p <> marker_file dir (requested_url_of r) ->
             files w' !! p = files w !! p) /\
  keeps_files w w' /\
  trace w' = (trace w ++ [EvOpenW (payload_file dir r); EvWrite (payload_file dir r);
                          EvTouch (marker_file dir (requested_url_of r))])%list.
Proof.
  intros H. rewrite marker_file_snoc. unfold payload_file.
  destruct (cache_dependency_cases env dir r w) as (res & w1 & E & _ & _ & Hc).
  rewrite H in E. injection E as <- <-.
  destruct Hc as [(_ & Hf & Ht) | (e & He & _)]; [|discriminate].
  set (cf := dir // _get_response_filename r) in *.
  set (mk := (dir ++ [_ckpt_filename (requested_url_of r)])%list) in *.
  unfold keeps_files. rewrite Hf. split; [|split; [|split; [|split]]].
  - destruct (<[cf:=content r]> (files w) !! mk) eqn:E; [eauto|].
    rewrite lookup_insert_eq. eauto.
  - destruct (<[cf:=content r]> (files w) !! mk) eqn:E.
    + rewrite lookup_insert_eq. eauto.
    + apply lookup_insert_is_Some'. right. rewrite lookup_insert_eq. eauto.
  - intros p Hp1 Hp2.
    destruct (<[cf:=content r]> (files w) !! mk) eqn:E.
    + now rewrite lookup_insert_ne.
    + now rewrite !lookup_insert_ne.
  - intros p Hp.
    destruct (<[cf:=content r]> (files w) !! mk) eqn:E.
    + apply lookup_insert_is_Some'. now right.
    + apply lookup_insert_is_Some'. right. apply lookup_insert_is_Some'. now right.
  - exact Ht.
Qed.

Lemma three_way_keeps (w w' : World) (p : Path.t) (a b : list byte) :
  files w' = files w \/ files w' = <[p := a]> (files w) \/
  files w' = <[p := b]> (files w) ->
  keeps_files w w' /\ (forall p', p' <> p -> files w' !! p' = files w !! p').
Proof.
  intros [H | [H | H]]; unfold keeps_files; rewrite H; split; intros p' Hp';
    try reflexivity; try (now rewrite lookup_insert_ne); try assumption;
    apply lookup_insert_is_Some'; now right.
Qed.

(** What every [fetch] does, whatever its outcome. *)
Lemma fetch_frame (env : Env) (dir : Path.t) (u : string) (w : World) :
  exists res w',
    fetch env dir u w = (res, w') /\
    stdout w' = stdout w /\
    requests_sent w' = (requests_sent w ++ [u])%list /\
    keeps_files w w'.
Proof.
  destruct (http_get env (trace w) u) as [r|e] eqn:Hget.
  - destruct (ok r) eqn:Hok.
    + rewrite (fetch_good_status _ _ _ _ _ Hget Hok).
      destruct (cache_dependency_cases env dir r (log (EvGet u) w))
        as (res & w1 & E & Hs & Hr & Hc).
      exists res, w1. split; [exact E|]. split; [exact Hs|].
      split; [now rewrite Hr, requests_sent_log|].
      destruct Hc as [(-> & _) | (e & -> & Hf)].
      * apply (cache_dependency_ok _ _ _ _ _ E).
      * apply (three_way_keeps (log (EvGet u) w) w1 _ _ _ Hf).
    + rewrite (fetch_bad_status _ _ _ _ _ Hget Hok). eexists _, _.
      split; [reflexivity|]. split; [reflexivity|].
      split; [apply requests_sent_log | exact (keeps_files_refl w)].
  - rewrite (fetch_get_raises _ _ _ _ _ Hget). eexists _, _.
    split; [reflexivity|]. split; [reflexivity|].
    split; [apply requests_sent_log | exact (keeps_files_refl w)].
Qed.

(** * The loop body *)

Lemma download_one_cached (env : Env) (dir : Path.t) (t : tally) (u : string) (w : World) :
  _is_cached w dir u = true ->
  download_one env dir t u w =
    (Ok (mkTally (failed_downloads t) (num_skipped t + 1) (num_success t)), w).
Proof. intros H. unfold download_one. now rewrite H. Qed.

Lemma download_one_success (env : Env) (dir : Path.t) (t : tally) (u : string)
    (w w1 : World) :
  _is_cached w dir u = false ->
  fetch env dir u w = (Ok tt, w1) ->
  download_one env dir t u w =
    (Ok (mkTally (failed_downloads t) (num_skipped t) (num_success t + 1)), w1).
Proof.
  intros H Hf. unfold download_one, try_except. rewrite H, run_bind, Hf. reflexivity.
Qed.

Lemma download_one_failure (env : Env) (dir : Path.t) (t : tally) (u : string)
    (w w1 : World) (e : exn) :
  _is_cached w dir u = false ->
  fetch env dir u w = (Raise e, w1) ->
  download_one env dir t u w =
    (Ok (mkTally (failed_downloads t ++ [u]) (num_skipped t) (num_success t)),
     printed [exn_msg e; "FAILURE: " +:+ u] w1).
Proof.
  intros H Hf. unfold download_one, try_except. rewrite H, run_bind, Hf.
  unfold on_failure, print, printed. mrun. cbn. now rewrite <- app_assoc.
Qed.

(** One turn of the loop never raises; it counts the URL once, removes no
    file, and sends a request only for a URL that has no marker. *)
Lemma download_one_step (env : Env) (dir : Path.t) (t : tally) (u : string) (w : World) :
  exists t' w',
    download_one env dir t u w = (Ok t', w') /\
    accounted t' = S (accounted t) /\
    keeps_files w w' /\
    (exists fl, failed_downloads t' = (failed_downloads t ++ fl)%list /\
                fl `sublist_of` [u]) /\
    (exists l, requests_sent w' = (requests_sent w ++ l)%list /\
               length l + num_skipped t' = S (num_skipped t) /\
               l `sublist_of` [u] /\
               forall v, v ∈ l -> _is_cached w dir v = false).
Proof.
  assert (Hnil : @nil string `sublist_of` [u]) by apply sublist_nil_l.
  destruct (_is_cached w dir u) eqn:Hc.
  - rewrite (download_one_cached _ _ _ _ _ Hc). eexists _, _. split; [reflexivity|].
    unfold accounted. cbn. split; [lia|]. split; [apply keeps_files_refl|].
    split; [exists []; now rewrite app_nil_r|].
    exists []. rewrite app_nil_r. split; [reflexivity|]. split; [cbn; lia|].
    split; [exact Hnil|]. intros v Hv. inversion Hv.
  - destruct (fetch_frame env dir u w) as (res & w1 & Hf & Hs & Hr & Hk).
    assert (Hl : forall v, v ∈ [u] -> _is_cached w dir v = false).
    { intros v Hv. apply list_elem_of_singleton in Hv. now subst. }
    destruct res as [[]|e].
    + rewrite (download_one_success _ _ _ _ _ _ Hc Hf). eexists _, _.
      split; [reflexivity|]. unfold accounted. cbn. split; [lia|]. split; [exact Hk|].
      split; [exists []; now rewrite app_nil_r|].
      exists [u]. split; [exact Hr|]. split; [cbn; lia|]. split; [reflexivity | exact Hl].
    + rewrite (download_one_failure _ _ _ _ _ _ _ Hc Hf). eexists _, _.
      split; [reflexivity|]. unfold accounted. cbn. rewrite length_app. cbn.
      split; [lia|]. split; [exact Hk|].
      split; [exists [u]; split; reflexivity|].
      exists [u]. split; [exact Hr|]. split; [cbn; lia|]. split; [reflexivity | exact Hl].
Qed.

Lemma for_each_cons (env : Env) (dir : Path.t) (u : string) (rest : list string)
    (t : tally) (w : World) :
  for_each env dir (u :: rest) t w =
    match download_one env dir t u w with
    | (Ok t', w') => for_each env dir rest t' w'
    | (Raise e, w') => (Raise e, w')
    end.
Proof. reflexivity. Qed.

(** The loop never raises; it counts every URL once. *)
Lemma for_each_run (env : Env) (dir : Path.t) (urls : list string) (t : tally) (w : World) :
  exists t' w',
    for_each env dir urls t w = (Ok t', w') /\
    accounted t' = accounted t + length urls /\
    keeps_files w w' /\
    (exists fl, failed_downloads t' = (failed_downloads t ++ fl)%list /\
                fl `sublist_of` urls) /\
    (exists l, requests_sent w' = (requests_sent w ++ l)%list /\
               length l + num_skipped t' = num_skipped t + length urls /\
               l `sublist_of` urls /\
               forall v, v ∈ l -> _is_cached w dir v = false).
Proof.
  revert t w. induction urls as [|u rest IH]; intros t w.
  - exists t, w. split; [reflexivity|]. split; [cbn; lia|].
    split; [apply keeps_files_refl|]. split; [exists []; now rewrite app_nil_r|].
    exists []. rewrite app_nil_r. split; [reflexivity|]. split; [cbn; lia|].
    split; [reflexivity|]. intros v Hv. inversion Hv.
  - destruct (download_one_step env dir t u w)
      as (t1 & w1 & E1 & Ha1 & Hk1 & (fl1 & Hf1 & Hs1) & (l1 & Hr1 & Hn1 & Hsl1 & Hc1)).
    destruct (IH t1 w1)
      as (t2 & w2 & E2 & Ha2 & Hk2 & (fl2 & Hf2 & Hs2) & (l2 & Hr2 & Hn2 & Hsl2 & Hc2)).
    exists t2, w2. rewrite for_each_cons, E1. split; [exact E2|].
    split; [cbn; lia|]. split; [eapply keeps_files_trans; eauto|].
    split.
    { exists (fl1 ++ fl2)%list. split; [now rewrite Hf2, Hf1, app_assoc|].
      change (u :: rest) with ([u] ++ rest)%list. now apply sublist_app. }
    exists (l1 ++ l2)%list. split; [now rewrite Hr2, Hr1, app_assoc|].
    split; [rewrite length_app; cbn; lia|].
    split; [change (u :: rest) with ([u] ++ rest)%list; now apply sublist_app|].
    intros v [Hv|Hv]%elem_of_app; [now apply Hc1|].
    specialize (Hc2 v Hv). destruct (_is_cached w dir v) eqn:Hc; [|reflexivity].
    now rewrite (keeps_files_cached _ _ _ _ Hk1 Hc) in Hc2.
Qed.


Lemma report_run (self : TensorflowRepo) (t : tally) (w : World) :
  exists lines,
    report self t w = (Ok tt, printed (lines ++ final_counters t) w).
Proof.
  unfold report, final_counters, print, printed.
  destruct (bool_decide (failed_downloads t = [])); mrun; cbn.
  - eexists [_]. cbn. rewrite <- !app_assoc. reflexivity.
  - eexists [_; _; _]. cbn. rewrite <- !app_assoc. reflexivity.
Qed.

Lemma download_urls_run (env : Env) (self : TensorflowRepo) (dir : Path.t)
    (urls : list string) (w : World) :
  exists t w1 lines,
    for_each env dir urls (mkTally [] 0 0) w = (Ok t, w1) /\
    _download_urls env self dir urls w = (Ok tt, printed (lines ++ final_counters t) w1).
Proof.
  destruct (for_each_run env dir urls (mkTally [] 0 0) w) as (t & w1 & E & _).
  destruct (report_run self t w1) as [lines Hr].
  exists t, w1, lines. split; [exact E|].
  unfold _download_urls. rewrite run_bind, E. exact Hr.
Qed.

Ltac evaluate := vm_compute; exact eq_refl.

(** * The batch loop: counting *)




(** * The batch loop: failures *)




(** * Markers *)

Lemma fetch_ok_inv (env : Env) (dir : Path.t) (u : string) (w w' : World) (r : Response) :
  http_get env (trace w) u = Ok r ->
  fetch env dir u w = (Ok tt, w') ->
  ok r = true /\ _cache_dependency env dir r (log (EvGet u) w) = (Ok tt, w').
Proof.
  intros Hget Hf. destruct (ok r) eqn:Hok.
  - now rewrite (fetch_good_status _ _ _ _ _ Hget Hok) in Hf.
  - now rewrite (fetch_bad_status _ _ _ _ _ Hget Hok) in Hf.
Qed.

Lemma for_each_cached (env : Env) (dir : Path.t) (u : string) (t : tally) (w : World) :
  _is_cached w dir u = true ->
  for_each env dir [u] t w
    = (Ok (mkTally (failed_downloads t) (num_skipped t + 1) (num_success t)), w).
Proof. intros H. now rewrite for_each_cons, (download_one_cached _ _ _ _ _ H). Qed.











(** * A URL listed twice *)

(** C8, as the code has it. The loop asks [_is_cached] again at every turn.
    Once the first occurrence of a URL has been downloaded, its marker
    recorded under that same string, the second occurrence is skipped: the
    run over the URL listed twice sends no second request and ends with one
    more download and one more skip. In a longer list no later occurrence is
    requested: the requests sent after the first are for other URLs. *)
Theorem repeated_url_is_requested_once (env : Env) (dir : Path.t) (u : string)
    (rest : list string) (t : tally) (w w1 : World) (r : Response) :
  _is_cached w dir u = false ->
  http_get env (trace w) u = Ok r ->
  requested_url_of r = u ->
  fetch env dir u w = (Ok tt, w1) ->
  for_each env dir [u; u] t w
    = (Ok (mkTally (failed_downloads t) (num_skipped t + 1) (num_success t + 1)), w1) /\
  requests_sent w1 = (requests_sent w ++ [u])%list /\
  exists t' w' l,
    for_each env dir (u :: rest) t w = (Ok t', w') /\
    requests_sent w' = (requests_sent w ++ u :: l)%list /\
    (u ∉ l) /\
    l `sublist_of` rest /\
    length l + num_skipped t' = num_skipped t + length rest.
Proof.
  intros Hc Hget Hreq Hf.
  destruct (fetch_ok_inv _ _ _ _ _ _ Hget Hf) as [_ Hcd].
  destruct (cache_dependency_ok _ _ _ _ _ Hcd) as (Hm & _).
  rewrite Hreq in Hm.
  assert (Hcached : _is_cached w1 dir u = true) by now apply is_cached_marker_file.
  assert (Hsent : requests_sent w1 = (requests_sent w ++ [u])%list).
  { destruct (fetch_frame env dir u w) as (res & w1' & Hf' & _ & Hr' & _).
    rewrite Hf in Hf'. now injection Hf' as <- <-. }
  split; [|split; [exact Hsent|]].
  - rewrite for_each_cons, (download_one_success _ _ _ _ _ _ Hc Hf).
    now rewrite (for_each_cached _ _ _ _ _ Hcached).
  - rewrite for_each_cons, (download_one_success _ _ _ _ _ _ Hc Hf).
    destruct (for_each_run env dir rest
                (mkTally (failed_downloads t) (num_skipped t) (num_success t + 1)) w1)
      as (t' & w' & E & _ & _ & _ & (l & Hr & Hn & Hs & Hl)).
    exists t', w', l. split; [exact E|].
    split; [now rewrite Hr, Hsent, <- app_assoc|].
    split; [|split; [exact Hs | exact Hn]].
    intros Hin. specialize (Hl u Hin). congruence.
Qed.

Lemma repeated_url_is_requested_once_witness :
  fetch serving_env cache_dir example_url empty_world
    = (Ok tt, world_after (fetch serving_env cache_dir example_url) empty_world) /\
  for_each serving_env cache_dir [example_url; example_url] (mkTally [] 0 0) empty_world
    = (Ok (mkTally [] 1 1),
       world_after (fetch serving_env cache_dir example_url) empty_world).
Proof.
  assert (H : fetch serving_env cache_dir example_url empty_world
    = (Ok tt, world_after (fetch serving_env cache_dir example_url) empty_world))
    by evaluate.
  split; [exact H|].
  exact (proj1 (repeated_url_is_requested_once serving_env cache_dir example_url []
                  (mkTally [] 0 0) empty_world _ (plain_response example_url)
                  ltac:(evaluate) eq_refl eq_refl H)).
Defined.

(** C8, as the claim has it, fails: a URL listed twice, with no marker when
    the run starts and a network that serves it, is requested once. The
    second occurrence is skipped. *)
Lemma duplicate_url_is_downloaded_once :
  _is_cached empty_world cache_dir example_url = false /\
  fst (for_each serving_env cache_dir [example_url; example_url] (mkTally [] 0 0)
         empty_world)
    = Ok (mkTally [] 1 1) /\
  requests_sent
    (world_after (for_each serving_env cache_dir [example_url; example_url] (mkTally [] 0 0))
       empty_world)
    = [example_url].
Proof. repeat split; evaluate. Qed.

(** * More on marker names *)

Lemma string_length_app (a b : string) :
  String.length (a +:+ b) = String.length a + String.length b.
Proof.
  induction a as [|c a IH]; [reflexivity|].
  rewrite append_cons. cbn [String.length]. now rewrite IH.
Qed.

Lemma le_bytes_length (n : nat) (x : Z) : length (MD5.le_bytes n x) = n.
Proof. revert x. induction n as [|n IH]; intros x; cbn; [reflexivity | now rewrite IH]. Qed.

Lemma digest_length (data : list byte) : length (MD5.digest data) = 16.
Proof.
  unfold MD5.digest.
  destruct (fold_left MD5.process _ MD5.init) as [[[a b] c] d].
  now rewrite !length_app, !le_bytes_length.
Qed.

Lemma hex_length (bs : list Z) : String.length (MD5.hex bs) = 2 * length bs.
Proof. induction bs as [|b bs IH]; cbn [MD5.hex String.length length]; lia. Qed.

Lemma hex_digit_lower_hex (n : Z) :
  (0 <= n < 16)%Z -> Str.one_of "0123456789abcdef" (MD5.hex_digit n) = true.
Proof.
  intros Hn. rewrite <- (Z2Nat.id n) by lia.
  assert (Hk : (Z.to_nat n < 16)%nat) by lia.
  revert Hk. generalize (Z.to_nat n). intros k Hk.
  do 16 (destruct k as [|k]; [reflexivity|]). lia.
Qed.

Lemma hex_lower_hex (bs : list Z) :
  Forall (fun b => (0 <= b < 256)%Z) bs ->
  Str.all_chars (Str.one_of "0123456789abcdef") (MD5.hex bs) = true.
Proof.
  induction 1 as [|b bs Hb _ IH]; [reflexivity|].
  cbn [MD5.hex Str.all_chars].
  rewrite !hex_digit_lower_hex, IH; [reflexivity | |].
  - apply Z.mod_pos_bound. lia.
  - split; [apply Z.div_pos; lia | apply Z.div_lt_upper_bound; lia].
Qed.

(** X1. The marker name of any URL, however long, is 37 characters: an at
    sign, 32 digits of lower-case hexadecimal, and [.txt]. *)
Theorem ckpt_filename_format (u : string) :
  exists h,
    _ckpt_filename u = "@" +:+ h +:+ ".txt" /\
    String.length h = 32 /\
    Str.all_chars (Str.one_of "0123456789abcdef") h = true /\
    String.length (_ckpt_filename u) = 37.
Proof.
  exists (MD5.hexdigest (Str.encode u)).
  assert (Hl : String.length (MD5.hexdigest (Str.encode u)) = 32).
  { unfold MD5.hexdigest. now rewrite hex_length, digest_length. }
  split; [reflexivity|]. split; [exact Hl|]. split.
  - unfold MD5.hexdigest. apply hex_lower_hex, digest_range.
  - unfold _ckpt_filename. rewrite !string_length_app, Hl. reflexivity.
Qed.

(** * More on the payload *)

Lemma cache_dependency_payload (env : Env) (dir : Path.t) (r : Response) (w w' : World) :
  _cache_dependency env dir r w = (Ok tt, w') ->
  files w' !! payload_file dir r = Some (content r).
Proof.
  intros H. unfold payload_file.
  destruct (cache_dependency_cases env dir r w) as (res & w1 & E & _ & _ & Hc).
  rewrite H in E. injection E as <- <-.
  destruct Hc as [(_ & Hf & _) | (e & He & _)]; [|discriminate].
  rewrite Hf.
  destruct (<[dir // _get_response_filename r := content r]> (files w)
              !! (dir ++ [_ckpt_filename (requested_url_of r)])%list) eqn:E.
  - apply lookup_insert_eq.
  - rewrite lookup_insert_ne; [apply lookup_insert_eq|].
    intros Heq. rewrite Heq, lookup_insert_eq in E. discriminate.
Qed.

(** X2. Write and read back: when [_cache_dependency] succeeds, the payload
    file holds the body of the response, whatever the file held before. *)
Theorem payload_holds_the_response_body (env : Env) (dir : Path.t) (r : Response)
    (w w' : World) :
  _cache_dependency env dir r w = (Ok tt, w') ->
  files w' !! payload_file dir r = Some (content r).
Proof. apply cache_dependency_payload. Qed.

Lemma payload_holds_the_response_body_witness :
  _cache_dependency serving_env cache_dir (plain_response example_url) empty_world
    = (Ok tt,
       world_after (_cache_dependency serving_env cache_dir (plain_response example_url))
         empty_world) /\
  files (world_after (_cache_dependency serving_env cache_dir (plain_response example_url))
           empty_world) !! payload_file cache_dir (plain_response example_url)
    = Some example_body.
Proof.
  assert (H : _cache_dependency serving_env cache_dir (plain_response example_url)
                empty_world
    = (Ok tt,
       world_after (_cache_dependency serving_env cache_dir (plain_response example_url))
         empty_world)) by evaluate.
  split; [exact H|].
  exact (payload_holds_the_response_body _ _ _ _ _ H).
Defined.

(** X3. Two downloads under one file name: when two responses are given the
    same file name, the second download overwrites the payload of the
    first. Both URLs are cached from then on, and one payload is left: the
    body of the second response. *)
Theorem same_name_downloads_overwrite (env : Env) (dir : Path.t) (r1 r2 : Response)
    (w w1 w2 : World) :
  _get_response_filename r1 = _get_response_filename r2 ->
  _cache_dependency env dir r1 w = (Ok tt, w1) ->
  _cache_dependency env dir r2 w1 = (Ok tt, w2) ->
  payload_file dir r1 = payload_file dir r2 /\
  files w1 !! payload_file dir r1 = Some (content r1) /\
  files w2 !! payload_file dir r1 = Some (content r2) /\
  _is_cached w2 dir (requested_url_of r1) = true /\
  _is_cached w2 dir (requested_url_of r2) = true.
Proof.
  intros Hn H1 H2.
  assert (Hp : payload_file dir r1 = payload_file dir r2)
    by (unfold payload_file; now rewrite Hn).
  split; [exact Hp|]. split; [exact (cache_dependency_payload _ _ _ _ _ H1)|].
  split; [rewrite Hp; exact (cache_dependency_payload _ _ _ _ _ H2)|].
  destruct (cache_dependency_ok _ _ _ _ _ H1) as (Hm1 & _).
  destruct (cache_dependency_ok _ _ _ _ _ H2) as (Hm2 & _ & _ & Hk & _).
  split.
  - apply (keeps_files_cached w1 w2 _ _ Hk). now apply is_cached_marker_file.
  - now apply is_cached_marker_file.
Qed.

Lemma same_name_downloads_overwrite_witness :
  _get_response_filename first_archive = "v1.0.tar.gz" /\
  _get_response_filename second_archive = "v1.0.tar.gz" /\
  files (world_after
           (_cache_dependency serving_env cache_dir second_archive)
           (world_after (_cache_dependency serving_env cache_dir first_archive)
              empty_world))
    !! payload_file cache_dir first_archive
    = Some (content second_archive).
Proof.
  split; [evaluate|]. split; [evaluate|].
  exact (proj1 (proj2 (proj2
    (same_name_downloads_overwrite serving_env cache_dir first_archive second_archive
       empty_world
       (world_after (_cache_dependency serving_env cache_dir first_archive) empty_world)
       (world_after
          (_cache_dependency serving_env cache_dir second_archive)
          (world_after (_cache_dependency serving_env cache_dir first_archive)
             empty_world))
       ltac:(evaluate) ltac:(evaluate) ltac:(evaluate))))).
Defined.

(** * File names *)

Lemma split_pieces_no_separator (sep : ascii) (s : string) :
  Forall (fun piece => Str.all_chars (fun c => negb (Ascii.eqb c sep)) piece = true)
    (Str.split sep s).
Proof.
  induction s as [|c s IH]; cbn [Str.split].
  - repeat constructor.
  - destruct (Ascii.eqb c sep) eqn:Hc.
    + constructor; [reflexivity | exact IH].
    + destruct (Str.split sep s) as [|w ws].
      * repeat constructor. cbn. now rewrite Hc.
      * inversion IH as [|? ? Hw Hws]; subst. constructor; [|exact Hws].
        cbn. now rewrite Hc, Hw.
Qed.

Lemma no_slash_not_rooted (n : string) :
  Str.all_chars (fun c => negb (Ascii.eqb c "/")) n = true ->
  Path.root_of n = [] /\ Path.is_root n = false.
Proof.
  intros H. destruct n as [|c n]; [split; reflexivity|].
  cbn in H. apply andb_true_iff in H. destruct H as [Hc _].
  apply negb_true_iff in Hc. unfold Path.root_of, Path.is_root.
  cbn [String.prefix]. destruct (ascii_dec "/" c) as [<-|_]; [discriminate|].
  split; reflexivity.
Qed.

(** [Path(s).name] is empty, or a component of [s]: it holds no slash and
    is neither empty nor a dot. *)
Lemma name_of_string_cases (s : string) :
  Path.name (Path.of_string s) = "" \/
  (Str.all_chars (fun c => negb (Ascii.eqb c "/")) (Path.name (Path.of_string s)) = true /\
   Path.is_component (Path.name (Path.of_string s)) = true).
Proof.
  unfold Path.name, Path.of_string. rewrite last_app.
  destruct (last (List.filter Path.is_component (Str.split "/" s))) as [c|] eqn:Hl.
  - apply last_Some in Hl. destruct Hl as [l' Hl].
    assert (Hin : In c (List.filter Path.is_component (Str.split "/" s))).
    { rewrite Hl. apply in_or_app. right. now left. }
    apply filter_In in Hin. destruct Hin as [Hin Hcomp].
    pose proof (split_pieces_no_separator "/" s) as Hall.
    rewrite Forall_forall in Hall. apply list_elem_of_In in Hin.
    specialize (Hall c Hin). cbn beta in Hall.
    destruct (no_slash_not_rooted c Hall) as [_ ->]. right. now split.
  - left. unfold Path.root_of.
    destruct (String.prefix "///" s), (String.prefix "//" s), (String.prefix "/" s);
      reflexivity.
Qed.

Lemma join_component (dir : Path.t) (n : string) :
  Str.all_chars (fun c => negb (Ascii.eqb c "/")) n = true ->
  Path.is_component n = true ->
  dir // n = (dir ++ [n])%list.
Proof.
  intros Hs Hc. unfold Path.join, Path.of_string.
  destruct (no_slash_not_rooted n Hs) as [-> _].
  rewrite (split_without_separator _ _ Hs). cbn. now rewrite Hc.
Qed.

Lemma lower_content_disposition :
  Str.lower "Content-Disposition" = "content-disposition".
Proof. reflexivity. Qed.

Lemma response_filename_no_header (r : Response) :
  headers r !! "content-disposition" = None ->
  _get_response_filename r = Path.name (Path.of_string (url r)).
Proof.
  intros H. unfold _get_response_filename, response_filename_try, ci_in.
  rewrite lower_content_disposition.
  change (Str.lower "content-disposition") with "content-disposition".
  rewrite H. rewrite bool_decide_eq_false_2 by (intros [? ?]; discriminate).
  reflexivity.
Qed.

Lemma response_filename_header (r : Response) (k v : string) :
  headers r !! "content-disposition" = Some (k, v) ->
  _get_response_filename r =
    match Re.findall FILENAME_PATTERN v with
    | g :: _ => g
    | [] => Path.name (Path.of_string (url r))
    end.
Proof.
  intros H. unfold _get_response_filename, response_filename_try, ci_in, ci_getitem.
  rewrite lower_content_disposition, H.
  rewrite bool_decide_eq_true_2 by eauto. cbn [rbind snd].
  destruct (Re.findall FILENAME_PATTERN v); reflexivity.
Qed.

(** X4. Without a [Content-Disposition] header, under any spelling of its
    name, the file name is the last segment of the URL of the response, and
    it holds no slash. The payload path is the download directory itself
    when the URL has no segment to give; it is the directory followed by
    [..], its parent, when the URL ends in [/..]; in every other case it
    is an entry of the download directory. *)
Theorem filename_falls_back_to_url_segment (dir : Path.t) (r : Response) :
  headers r !! "content-disposition" = None ->
  _get_response_filename r = Path.name (Path.of_string (url r)) /\
  Str.all_chars (fun c => negb (Ascii.eqb c "/")) (_get_response_filename r) = true /\
  ((_get_response_filename r = "" /\ payload_file dir r = dir) \/
   (_get_response_filename r = ".." /\ payload_file dir r = (dir ++ [".."])%list) \/
   (_get_response_filename r <> "" /\ _get_response_filename r <> "." /\
    _get_response_filename r <> ".." /\
    payload_file dir r = (dir ++ [_get_response_filename r])%list)).
Proof.
  intros H. rewrite (response_filename_no_header r H). unfold payload_file.
  rewrite (response_filename_no_header r H). split; [reflexivity|].
  destruct (name_of_string_cases (url r)) as [-> | [Hs Hc]].
  - split; [reflexivity|]. left. split; [reflexivity|].
    unfold Path.join. cbn. apply app_nil_r.
  - split; [exact Hs|]. right.
    pose proof (join_component dir _ Hs Hc) as Hj.
    destruct (decide (Path.name (Path.of_string (url r)) = "..")) as [E|E].
    + left. split; [exact E|]. rewrite Hj. now rewrite E.
    + right. split; [|split; [|split; [exact E | exact Hj]]];
        intros E'; rewrite E' in Hc; discriminate.
Qed.

Lemma filename_falls_back_to_url_segment_witness :
  _get_response_filename (plain_response example_url) = "pkg.tar.gz" /\
  payload_file cache_dir (plain_response example_url) = ["/"; "cache"; "pkg.tar.gz"] /\
  _get_response_filename (plain_response parent_url) = ".." /\
  payload_file cache_dir (plain_response parent_url) = ["/"; "cache"; ".."].
Proof.
  destruct (filename_falls_back_to_url_segment cache_dir (plain_response example_url)
              eq_refl) as (Hn & _ & Hp).
  destruct (filename_falls_back_to_url_segment cache_dir (plain_response parent_url)
              eq_refl) as (Hn' & _ & Hp').
  split; [rewrite Hn; evaluate|]. split.
  - destruct Hp as [[He _] | [[He _] | (_ & _ & _ & ->)]];
      [vm_compute in He; discriminate He | vm_compute in He; discriminate He | evaluate].
  - split; [rewrite Hn'; evaluate|].
    destruct Hp' as [[He _] | [[_ ->] | (_ & _ & He & _)]];
      [vm_compute in He; discriminate He | evaluate | exfalso; apply He; evaluate].
Defined.

(** X5. A file name taken from the header is used as the server wrote it:
    when it begins with a slash, the payload path is that absolute path,
    whatever the download directory, and the payload is written there. *)
Theorem absolute_header_filename_leaves_download_dir (env : Env) (dir : Path.t)
    (r : Response) (k v g : string) (rest : list string) (w w' : World) :
  headers r !! "content-disposition" = Some (k, v) ->
  Re.findall FILENAME_PATTERN v = g :: rest ->
  String.prefix "/" g = true ->
  _cache_dependency env dir r w = (Ok tt, w') ->
  _get_response_filename r = g /\
  payload_file dir r = Path.of_string g /\
  (forall dir', payload_file dir' r = payload_file dir r) /\
  files w' !! Path.of_string g = Some (content r).
Proof.
  intros Hh Hf Hp Hc.
  assert (Hn : _get_response_filename r = g)
    by now rewrite (response_filename_header r k v Hh), Hf.
  assert (Hj : forall d, payload_file d r = Path.of_string g).
  { intros d. unfold payload_file, Path.join. rewrite Hn. unfold Path.root_of.
    rewrite Hp.
    destruct (String.prefix "///" g), (String.prefix "//" g); reflexivity. }
  split; [exact Hn|]. split; [apply Hj|]. split; [intros d; now rewrite !Hj|].
  rewrite <- (Hj dir). exact (cache_dependency_payload _ _ _ _ _ Hc).
Qed.

Lemma absolute_header_filename_leaves_download_dir_witness :
  payload_file cache_dir absolute_name_response = ["/"; "etc"; "cron.d"; "job"] /\
  files (world_after (_cache_dependency serving_env cache_dir absolute_name_response)
           empty_world) !! ["/"; "etc"; "cron.d"; "job"]
    = Some example_body.
Proof.
  destruct (absolute_header_filename_leaves_download_dir serving_env cache_dir
              absolute_name_response "Content-Disposition"
              "attachment; filename=/etc/cron.d/job" "/etc/cron.d/job" []
              empty_world
              (world_after (_cache_dependency serving_env cache_dir absolute_name_response)
                 empty_world)
              eq_refl ltac:(evaluate) eq_refl ltac:(evaluate))
    as (_ & Hp & _ & Hf).
  split; [rewrite Hp; evaluate | exact Hf].
Defined.

(** * The two expressions, as functions on the text *)

Lemma append_assoc (a b c : string) : (a +:+ b) +:+ c = a +:+ (b +:+ c).
Proof. induction a as [|x a IH]; [reflexivity|]. now rewrite !append_cons, IH. Qed.

Lemma take_app_length (a b : string) : Str.take (String.length a) (a +:+ b) = a.
Proof. induction a as [|x a IH]; [now destruct b|]. rewrite append_cons. cbn. now rewrite IH. Qed.

Lemma consumed_app (a b : string) : Str.consumed (a +:+ b) b = a.
Proof.
  unfold Str.consumed. rewrite string_length_app.
  replace (String.length a + String.length b - String.length b) with (String.length a) by lia.
  apply take_app_length.
Qed.

Lemma first_line_after_line (s : string) : s = first_line s +:+ after_line s.
Proof.
  induction s as [|c s IH]; [reflexivity|]. cbn [first_line after_line].
  destruct (Ascii.eqb c Re.newline); [reflexivity|]. now rewrite append_cons, <- IH.
Qed.

Lemma bind_singleton {A B : Type} (x : A) (f : A -> list B) : [x] ≫= f = f x.
Proof. cbn. apply app_nil_r. Qed.

Lemma run_Lit (p s : string) (c : option string) :
  Re.run (Re.Lit p) (s, c) =
    match Spec.strip_prefix p s with
    | Some s' => [(s', c)]
    | None => []
    end.
Proof.
  revert s. induction p as [|a p IH]; intros s; [reflexivity|].
  cbn [Re.Lit Re.run Spec.strip_prefix fst snd].
  destruct s as [|b s]; [reflexivity|]. cbn [Re.step Re.accepts].
  rewrite (Ascii.eqb_sym b a). destruct (Ascii.eqb a b); [|reflexivity].
  cbn [fmap list_fmap]. rewrite bind_singleton. apply IH.
Qed.

Lemma strip_prefix_split (p s s' : string) :
  Spec.strip_prefix p s = Some s' <-> s = p +:+ s'.
Proof.
  revert s. induction p as [|a p IH]; intros s; cbn [Spec.strip_prefix].
  - split; [now intros [= ->] | now intros ->].
  - destruct s as [|b s]; [split; intros H; discriminate|].
    rewrite append_cons. destruct (Ascii.eqb a b) eqn:E.
    + apply Ascii.eqb_eq in E. subst b. rewrite IH. split; [now intros -> | now intros [= ->]].
    + apply Ascii.eqb_neq in E. split; [discriminate | intros [= Hab _]; congruence].
Qed.

Lemma strip_prefix_prefix (p s : string) :
  String.prefix p s = false -> Spec.strip_prefix p s = None.
Proof.
  intros H. destruct (Spec.strip_prefix p s) as [s'|] eqn:E; [|reflexivity].
  apply strip_prefix_split in E.
  assert (Ht : String.prefix p s = true) by (apply prefix_split; eauto). congruence.
Qed.

(** The longest repetition of [.] reads the rest of the line. *)
Lemma star_dot_head (s : string) : exists tl, Re.star Re.Dot s = after_line s :: tl.
Proof.
  induction s as [|c s [tl IH]]; [now exists []|].
  cbn [Re.star Re.accepts after_line].
  destruct (Ascii.eqb c Re.newline); cbn [negb]; [now exists []|].
  rewrite IH. now eexists.
Qed.

(** ['filename=(.+)'] at the start of [s]: the text must begin with
    [filename=], and the group is what follows on the line, if anything. *)
Lemma filename_match_here (s : string) :
  Re.match_here FILENAME_PATTERN s =
    match Spec.strip_prefix "filename=" s with
    | Some name =>
        match first_line name with
        | EmptyString => None
        | String _ _ => Some (after_line name, first_line name)
        end
    | None => None
    end.
Proof.
  unfold Re.match_here, FILENAME_PATTERN. cbn [Re.run]. rewrite run_Lit.
  destruct (Spec.strip_prefix "filename=" s) as [name|]; [|reflexivity].
  rewrite bind_singleton. cbn [Re.run fst snd].
  destruct name as [|c name]; [reflexivity|].
  cbn [Re.step Re.accepts first_line after_line].
  destruct (Ascii.eqb c Re.newline) eqn:Hc; cbn [negb]; [reflexivity|].
  rewrite bind_singleton. destruct (star_dot_head name) as [tl ->].
  cbn [fmap list_fmap fst snd default].
  assert (E : Str.consumed (String c name) (after_line name) = String c (first_line name)).
  { rewrite (first_line_after_line name) at 1. rewrite <- append_cons. apply consumed_app. }
  rewrite E. reflexivity.
Qed.

(** ** Scanning *)

Lemma findall_from_skip (r : Re.regex) (a s : string) :
  Re.findall_from r (a +:+ s) (String.length a) = Re.findall_from r s 0.
Proof.
  induction a as [|c a IH]; [reflexivity|]. rewrite append_cons. exact IH.
Qed.

Lemma findall_from_miss (r : Re.regex) (c : ascii) (s : string) :
  Re.match_here r (String c s) = None ->
  Re.findall_from r (String c s) 0 = Re.findall_from r s 0.
Proof. intros H. cbn [Re.findall_from]. now rewrite H. Qed.

Lemma findall_from_hit (r : Re.regex) (c : ascii) (m rest g : string) :
  Re.match_here r (String c m +:+ rest) = Some (rest, g) ->
  Re.findall_from r (String c m +:+ rest) 0 = g :: Re.findall_from r rest 0.
Proof.
  intros H. rewrite append_cons in *. cbn [Re.findall_from]. rewrite H. f_equal.
  cbn [String.length]. rewrite string_length_app.
  replace (S (String.length m + String.length rest) - String.length rest - 1)
    with (String.length m) by lia.
  apply findall_from_skip.
Qed.

(** No match begins inside [pre] when the expression needs the text [p] and
    [p] does not occur in [pre] followed by the start of [q]. *)
Lemma prefix_app_short (p b t : string) :
  String.length p <= String.length b ->
  String.prefix p (b +:+ t) = String.prefix p b.
Proof.
  revert b. induction p as [|a p IH]; intros b Hl; [now destruct b, t|].
  destruct b as [|x b]; [cbn in Hl; lia|]. rewrite append_cons. cbn [String.prefix].
  destruct (ascii_dec a x); [|reflexivity]. apply IH. cbn in Hl. lia.
Qed.

Lemma contains_false_cons (p : string) (c : ascii) (s : string) :
  Str.contains p (String c s) = false ->
  String.prefix p (String c s) = false /\ Str.contains p s = false.
Proof. cbn [Str.contains]. intros H. now apply orb_false_iff in H. Qed.

Lemma findall_from_pre (r : Re.regex) (p pre q t : string) :
  (forall s, String.prefix p s = false -> Re.match_here r s = None) ->
  String.length p <= S (String.length q) ->
  Str.contains p (pre +:+ q) = false ->
  Re.findall_from r (pre +:+ q +:+ t) 0 = Re.findall_from r (q +:+ t) 0.
Proof.
  intros Hr Hl. induction pre as [|x pre IH]; intros Hc; [reflexivity|].
  rewrite append_cons in Hc. apply contains_false_cons in Hc. destruct Hc as [Hp Hc].
  rewrite append_cons, findall_from_miss; [now apply IH|].
  apply Hr. rewrite <- append_assoc, <- append_cons, prefix_app_short; [exact Hp|].
  cbn [String.length]. rewrite string_length_app. lia.
Qed.

Lemma findall_from_none (r : Re.regex) (p s : string) :
  (forall s, String.prefix p s = false -> Re.match_here r s = None) ->
  String.prefix p "" = false ->
  Str.contains p s = false ->
  Re.findall_from r s 0 = [].
Proof.
  intros Hr He. induction s as [|x s IH]; intros Hc.
  - cbn. now rewrite (Hr "" He).
  - apply contains_false_cons in Hc. destruct Hc as [Hp Hc].
    rewrite findall_from_miss; [now apply IH | now apply Hr].
Qed.

Lemma filename_needs_prefix (s : string) :
  String.prefix "filename=" s = false -> Re.match_here FILENAME_PATTERN s = None.
Proof. intros H. now rewrite filename_match_here, (strip_prefix_prefix _ _ H). Qed.

(** X6. The file name a header gives is what follows the first [filename=]
    up to the end of the line, other parameters and quotes included. *)
Theorem header_filename_is_rest_of_line (r : Response) (k pre name : string) :
  headers r !! "content-disposition" = Some (k, pre +:+ "filename=" +:+ name) ->
  Str.contains "filename=" (pre +:+ "filename") = false ->
  first_line name <> "" ->
  _get_response_filename r = first_line name.
Proof.
  intros Hh Hc Hn. rewrite (response_filename_header r _ _ Hh). unfold Re.findall.
  change ("filename=" +:+ name) with ("filename" +:+ ("=" +:+ name)).
  rewrite (findall_from_pre _ "filename=" pre "filename" _ filename_needs_prefix);
    [|cbn; lia | exact Hc].
  change ("filename" +:+ ("=" +:+ name)) with (String "f" ("ilename=" +:+ name)).
  cbn [Re.findall_from].
  change (String "f" ("ilename=" +:+ name)) with ("filename=" +:+ name).
  rewrite filename_match_here.
  assert (E : Spec.strip_prefix "filename=" ("filename=" +:+ name) = Some name)
    by now apply strip_prefix_split.
  rewrite E. destruct (first_line name); [contradiction | reflexivity].
Qed.

Lemma header_filename_is_rest_of_line_witness :
  _get_response_filename
    (mkResponse 200 example_url
       {[ "content-disposition" :=
            ("Content-Disposition", "attachment; filename=pkg.tar.gz; size=7") ]}
       example_body [])
    = "pkg.tar.gz; size=7".
Proof.
  exact (header_filename_is_rest_of_line
           (mkResponse 200 example_url
              {[ "content-disposition" :=
                   ("Content-Disposition", "attachment; filename=pkg.tar.gz; size=7") ]}
              example_body [])
           "Content-Disposition" "attachment; " "pkg.tar.gz; size=7"
           ltac:(evaluate) ltac:(evaluate) ltac:(discriminate)).
Defined.

(** X7. A [Content-Disposition] header that holds no [filename=] gives no
    name: the [IndexError] is swallowed and the name is the last segment of
    the URL, as when there is no header. *)
Theorem header_without_filename_falls_back (r : Response) (k v : string) :
  headers r !! "content-disposition" = Some (k, v) ->
  Str.contains "filename=" v = false ->
  _get_response_filename r = Path.name (Path.of_string (url r)).
Proof.
  intros Hh Hc. rewrite (response_filename_header r _ _ Hh). unfold Re.findall.
  now rewrite (findall_from_none _ "filename=" v filename_needs_prefix eq_refl Hc).
Qed.

Lemma header_without_filename_falls_back_witness :
  _get_response_filename
    (mkResponse 200 example_url
       {[ "content-disposition" := ("Content-Disposition", "inline") ]} example_body [])
    = "pkg.tar.gz".
Proof.
  rewrite (header_without_filename_falls_back
             (mkResponse 200 example_url
                {[ "content-disposition" := ("Content-Disposition", "inline") ]}
                example_body [])
             "Content-Disposition" "inline" ltac:(evaluate) ltac:(evaluate)).
  evaluate.
Defined.

(** * The URL expression, as a function on the text *)

Lemma last_quote_split (s body after : string) :
  last_quote s = Some (body, after) ->
  s = body +:+ String dquote after /\ first_line body = body /\ last_quote after = None.
Proof.
  revert body after. induction s as [|c s IH]; intros body after H; [discriminate|].
  cbn [last_quote] in H. destruct (Ascii.eqb c Re.newline) eqn:Hn; [discriminate|].
  destruct (last_quote s) as [[b r]|] eqn:Hl.
  - injection H as <- <-. destruct (IH b r eq_refl) as (-> & Hb & Hr).
    split; [now rewrite append_cons|]. split; [|exact Hr].
    cbn [first_line]. now rewrite Hn, Hb.
  - destruct (Ascii.eqb c dquote) eqn:Hq; [|discriminate].
    apply Ascii.eqb_eq in Hq. subst c. injection H as <- <-. now repeat split.
Qed.

Lemma last_quote_app (body post : string) :
  first_line body = body ->
  last_quote post = None ->
  last_quote (body +:+ String dquote post) = Some (body, post).
Proof.
  intros Hb Hp. induction body as [|c body IH].
  - change ("" +:+ String dquote post) with (String dquote post).
    cbn [last_quote]. now rewrite Hp.
  - rewrite append_cons. cbn [last_quote first_line] in *.
    destruct (Ascii.eqb c Re.newline); [discriminate|].
    injection Hb as Hb. now rewrite (IH Hb).
Qed.

Lemma last_quote_skip_comma (s : string) :
  last_quote s = None -> last_quote (Spec.skip_comma s) = None.
Proof.
  destruct s as [|c s]; [reflexivity|]. cbn [Spec.skip_comma].
  destruct (Ascii.eqb c ",") eqn:Hc; [|now intros].
  apply Ascii.eqb_eq in Hc. subst c. cbn [last_quote].
  change (Ascii.eqb "," Re.newline) with false. cbn iota.
  destruct (last_quote s) as [[b r]|]; [discriminate | reflexivity].
Qed.

Lemma run_after_group (s : string) (c : option string) :
  head (Re.run (Re.Cat (Re.Atom (Re.Chr dquote)) (Re.Opt (Re.Atom (Re.Chr ",")))) (s, c)) =
    match s with
    | String x s' => if Ascii.eqb x dquote then Some (Spec.skip_comma s', c) else None
    | EmptyString => None
    end.
Proof.
  cbn [Re.run fst snd]. destruct s as [|x s]; [reflexivity|].
  cbn [Re.step Re.accepts]. destruct (Ascii.eqb x dquote); [|reflexivity].
  cbn [fmap list_fmap]. rewrite bind_singleton. cbn [Re.run fst snd].
  destruct s as [|y s]; [reflexivity|]. cbn [Re.step Re.accepts Spec.skip_comma].
  destruct (Ascii.eqb y ","); reflexivity.
Qed.

Lemma head_of_app {A : Type} (l1 l2 : list A) :
  head (l1 ++ l2)%list = match head l1 with Some x => Some x | None => head l2 end.
Proof. now destruct l1. Qed.

Lemma bind_over_app {A B : Type} (f : A -> list B) (l1 l2 : list A) :
  ((l1 ++ l2) ≫= f = (l1 ≫= f) ++ (l2 ≫= f))%list.
Proof. induction l1 as [|x l1 IH]; [reflexivity|]. cbn. now rewrite IH, app_assoc. Qed.

Lemma bind_after_fmap {A B C : Type} (f : A -> B) (g : B -> list C) (l : list A) :
  (f <$> l) ≫= g = l ≫= (fun x => g (f x)).
Proof. induction l as [|x l IH]; [reflexivity|]. cbn. now rewrite IH. Qed.

(** Backtracking from the end of the line stops at its last double quote. *)
Lemma star_then_quote (cap : string -> option string) (s : string) :
  head (Re.star Re.Dot s ≫=
          (fun s3 => Re.run (Re.Cat (Re.Atom (Re.Chr dquote)) (Re.Opt (Re.Atom (Re.Chr ","))))
                       (s3, cap s3))) =
    match last_quote s with
    | Some (_, after) => Some (Spec.skip_comma after, cap (String dquote after))
    | None => None
    end.
Proof.
  induction s as [|c s IH].
  - reflexivity.
  - cbn [Re.star Re.accepts last_quote].
    destruct (Ascii.eqb c Re.newline) eqn:Hn; cbn [negb].
    + rewrite bind_singleton, run_after_group.
      apply Ascii.eqb_eq in Hn. subst c. reflexivity.
    + rewrite bind_over_app, head_of_app, IH, bind_singleton.
      destruct (last_quote s) as [[b r]|]; [reflexivity|].
      rewrite run_after_group. destruct (Ascii.eqb c dquote) eqn:Hq; [|reflexivity].
      apply Ascii.eqb_eq in Hq. now subst c.
Qed.

Lemma strip_prefix_cons (a b : ascii) (p s : string) :
  Spec.strip_prefix (String a p) (String b s)
    = if Ascii.eqb a b then Spec.strip_prefix p s else None.
Proof. reflexivity. Qed.

(** [DEPENDENCY_URL_PATTERN] at the start of [s]: the text must begin with
    a double quote and [https://]; the match runs to the last double quote
    of the line, and over a comma that follows it. *)
Lemma url_match_here (s : string) :
  Re.match_here DEPENDENCY_URL_PATTERN s =
    match Spec.strip_prefix (String dquote "https://") s with
    | Some s2 =>
        match last_quote s2 with
        | Some (body, after) => Some (Spec.skip_comma after, "https://" +:+ body)
        | None => None
        end
    | None => None
    end.
Proof.
  unfold Re.match_here, DEPENDENCY_URL_PATTERN.
  destruct s as [|x s1]; [reflexivity|].
  rewrite strip_prefix_cons.
  cbn [Re.run fst snd Re.step Re.accepts]. rewrite (Ascii.eqb_sym x dquote).
  destruct (Ascii.eqb dquote x); [|reflexivity].
  cbn [fmap list_fmap]. rewrite bind_singleton.
  rewrite run_Lit.
  destruct (Spec.strip_prefix "https://" s1) as [s2|] eqn:Hs; [|reflexivity].
  rewrite bind_singleton. rewrite !bind_after_fmap. cbn [fst snd].
  pose proof (star_then_quote (fun s3 => Some (Str.consumed s1 s3)) s2) as H.
  cbn [Re.run fst snd] in H.
  match goal with
  | |- match ?l with _ => _ end = _ =>
      assert (Hh : head l =
                   match last_quote s2 with
                   | Some (_, after) =>
                       Some (Spec.skip_comma after,
                             Some (Str.consumed s1 (String dquote after)))
                   | None => None
                   end) by exact H;
      clear H; revert Hh; destruct l as [|[rest cap] tl]; intros H
  end; cbn [head] in H.
  - destruct (last_quote s2) as [[b r]|]; [discriminate | reflexivity].
  - destruct (last_quote s2) as [[b r]|] eqn:Hl; [|discriminate].
    injection H as -> ->. cbn [default].
    apply strip_prefix_split in Hs. apply last_quote_split in Hl.
    destruct Hl as (-> & _ & _). subst s1.
    now rewrite <- append_assoc, consumed_app.
Qed.

Lemma url_needs_prefix (s : string) :
  String.prefix (String dquote "https://") s = false ->
  Re.match_here DEPENDENCY_URL_PATTERN s = None.
Proof. intros H. now rewrite url_match_here, (strip_prefix_prefix _ _ H). Qed.

(** A match, spelled out. *)
Lemma url_match_inv (s rest g : string) :
  Re.match_here DEPENDENCY_URL_PATTERN s = Some (rest, g) ->
  exists body after,
    s = quoted ("https://" +:+ body) +:+ after /\
    g = "https://" +:+ body /\ first_line body = body /\
    last_quote after = None /\ rest = Spec.skip_comma after.
Proof.
  rewrite url_match_here.
  destruct (Spec.strip_prefix _ s) as [s2|] eqn:Hs; [|discriminate].
  destruct (last_quote s2) as [[body after]|] eqn:Hl; [|discriminate].
  intros [= <- <-]. apply strip_prefix_split in Hs. apply last_quote_split in Hl.
  destruct Hl as (-> & Hb & Ha). exists body, after.
  split; [|now repeat split]. rewrite Hs. unfold quoted.
  now rewrite !append_cons, !append_assoc.
Qed.

(** ** Every result of the scan is a match somewhere in the text *)

Lemma findall_from_elem (r : Re.regex) (s : string) (k : nat) (g : string) :
  g ∈ Re.findall_from r s k ->
  exists a s' rest, s = a +:+ s' /\ Re.match_here r s' = Some (rest, g).
Proof.
  revert k. induction s as [|c s IH]; intros k H.
  - cbn in H. destruct k; [|inversion H].
    destruct (Re.match_here r "") as [[rest g']|] eqn:E; [|inversion H].
    apply list_elem_of_singleton in H. subst g'. now exists "", "", rest.
  - cbn [Re.findall_from] in H. destruct k as [|k].
    + destruct (Re.match_here r (String c s)) as [[rest g']|] eqn:E.
      * apply elem_of_cons in H. destruct H as [-> | H].
        -- now exists "", (String c s), rest.
        -- destruct (IH _ H) as (a & s' & rest' & -> & Hm).
           now exists (String c a), s', rest'.
      * destruct (IH _ H) as (a & s' & rest' & -> & Hm).
        now exists (String c a), s', rest'.
    + destruct (IH _ H) as (a & s' & rest' & -> & Hm).
      now exists (String c a), s', rest'.
Qed.

Lemma first_line_no_newline (s : string) :
  first_line s = s -> Str.contains (String Re.newline "") s = false.
Proof.
  intros Hl. destruct (Str.contains (String Re.newline "") s) eqn:E; [|reflexivity].
  apply contains_substring in E. destruct E as (x & y & E). exfalso.
  rewrite E in Hl. clear -Hl. induction x as [|c x IH].
  - change ("" +:+ (String Re.newline "" +:+ y)) with (String Re.newline y) in Hl.
    cbn in Hl. discriminate.
  - rewrite append_cons in Hl. cbn [first_line] in Hl.
    destruct (Ascii.eqb c Re.newline); [discriminate|]. injection Hl as Hl. auto.
Qed.

(** X8. Every URL the extractor returns begins with [https://], lies on one
    line, and stands in the text between two double quotes. *)
Theorem extracted_urls_are_quoted_https (contents : string) (remove_mirrors : bool)
    (u : string) :
  u ∈ _extract_dependency_urls contents remove_mirrors ->
  String.prefix "https://" u = true /\
  Str.contains (String Re.newline "") u = false /\
  Str.contains (quoted u) contents = true.
Proof.
  intros Hu.
  assert (Hin : u ∈ Re.findall DEPENDENCY_URL_PATTERN contents).
  { unfold _extract_dependency_urls in Hu. destruct remove_mirrors; [|exact Hu].
    now apply list_elem_of_filter in Hu. }
  apply findall_from_elem in Hin. destruct Hin as (a & s' & rest & -> & Hm).
  apply url_match_inv in Hm. destruct Hm as (body & after & -> & -> & Hb & _ & _).
  split; [apply prefix_split; eauto|]. split.
  - apply first_line_no_newline.
    change ("https://" +:+ body) with
      (String "h" (String "t" (String "t" (String "p" (String "s" (String ":"
         (String "/" (String "/" body)))))))).
    cbn [first_line]. repeat (change (Ascii.eqb _ Re.newline) with false; cbn iota).
    now rewrite Hb.
  - apply contains_substring. now exists a, after.
Qed.

Lemma extracted_urls_are_quoted_https_witness :
  String.prefix "https://" "https://example.com/pkg.tar.gz" = true /\
  Str.contains (quoted "https://example.com/pkg.tar.gz") archive_then_mirror = true.
Proof.
  destruct (extracted_urls_are_quoted_https archive_then_mirror true
              "https://example.com/pkg.tar.gz"
              ltac:(vm_compute; apply list_elem_of_here)) as (H1 & _ & H3).
  split; [exact H1 | exact H3].
Defined.

(** X9. A text in which no double quote is followed by [https://] gives no
    URL: the empty text, a text without quotes, a text of [http://] URLs. *)
Theorem no_quoted_https_no_urls (contents : string) (remove_mirrors : bool) :
  Str.contains (String dquote "https://") contents = false ->
  _extract_dependency_urls contents remove_mirrors = [].
Proof.
  intros H. unfold _extract_dependency_urls, Re.findall.
  rewrite (findall_from_none _ _ contents url_needs_prefix eq_refl H).
  now destruct remove_mirrors.
Qed.

Lemma no_quoted_https_no_urls_witness :
  _extract_dependency_urls ("url = " +:+ quoted "http://example.com/pkg.tar.gz") true = [].
Proof.
  exact (no_quoted_https_no_urls ("url = " +:+ quoted "http://example.com/pkg.tar.gz")
           true ltac:(evaluate)).
Defined.

(** X10. The match is greedy. After a text in which no quoted [https://]
    begins, the string between [https://] and the last double quote of the
    line is extracted, quotes inside it included, and the scan goes on
    after that quote and the comma behind it. *)
Theorem url_runs_to_last_quote_of_line (pre body post : string) :
  Str.contains (String dquote "https://") (pre +:+ String dquote "https:/") = false ->
  first_line body = body ->
  last_quote post = None ->
  Re.findall DEPENDENCY_URL_PATTERN (pre +:+ quoted ("https://" +:+ body) +:+ post)
    = ("https://" +:+ body)
        :: Re.findall DEPENDENCY_URL_PATTERN (Spec.skip_comma post).
Proof.
  intros Hpre Hb Hp. unfold Re.findall.
  assert (E : quoted ("https://" +:+ body) +:+ post
              = String dquote "https:/" +:+ ("/" +:+ body +:+ String dquote post)).
  { unfold quoted. now rewrite !append_cons, !append_assoc. }
  rewrite E.
  rewrite (findall_from_pre _ (String dquote "https://") pre _ _ url_needs_prefix);
    [|cbn; lia | exact Hpre].
  rewrite <- E. clear E.
  assert (Hm : Re.match_here DEPENDENCY_URL_PATTERN
                 (quoted ("https://" +:+ body) +:+ post)
               = Some (Spec.skip_comma post, "https://" +:+ body)).
  { rewrite url_match_here.
    assert (Hs : Spec.strip_prefix (String dquote "https://")
                   (quoted ("https://" +:+ body) +:+ post)
                 = Some (body +:+ String dquote post)).
    { apply strip_prefix_split. unfold quoted. now rewrite !append_cons, !append_assoc. }
    now rewrite Hs, (last_quote_app _ _ Hb Hp). }
  destruct post as [|c post].
  - assert (Es : quoted ("https://" +:+ body) +:+ ""
                 = String dquote ("https://" +:+ body +:+ String dquote "") +:+ "").
    { unfold quoted. now rewrite !append_cons. }
    rewrite Es in *. now apply findall_from_hit.
  - cbn [Spec.skip_comma] in *. destruct (Ascii.eqb c ",") eqn:Hc.
    + assert (Es : quoted ("https://" +:+ body) +:+ String c post
                   = String dquote ("https://" +:+ body +:+ String dquote (String c ""))
                       +:+ post).
      { unfold quoted. now rewrite !append_cons, !append_assoc. }
      rewrite Es in *. now apply findall_from_hit.
    + assert (Es : quoted ("https://" +:+ body) +:+ String c post
                   = String dquote ("https://" +:+ body +:+ String dquote "")
                       +:+ String c post).
      { unfold quoted. now rewrite !append_cons. }
      rewrite Es in *. now apply findall_from_hit.
Qed.

Lemma url_runs_to_last_quote_of_line_witness :
  Re.findall DEPENDENCY_URL_PATTERN
    ("urls = [" +:+ quoted ("https://" +:+ "a.com/x.tar.gz") +:+ ",")
    = ["https://a.com/x.tar.gz"].
Proof.
  rewrite (url_runs_to_last_quote_of_line "urls = [" "a.com/x.tar.gz" ","
             ltac:(evaluate) ltac:(evaluate) ltac:(evaluate)).
  evaluate.
Defined.

(** ** At most one match on a line *)

Lemma count_lines_app (a b : string) : count_lines b <= count_lines (a +:+ b).
Proof.
  induction a as [|c a IH]; [reflexivity|]. rewrite append_cons. cbn [count_lines].
  destruct (Ascii.eqb _ _); lia.
Qed.

Lemma findall_per_line (n : nat) (s : string) :
  String.length s <= n ->
  length (Re.findall_from DEPENDENCY_URL_PATTERN s 0) <= count_lines s /\
  (last_quote s = None ->
   S (length (Re.findall_from DEPENDENCY_URL_PATTERN s 0)) <= count_lines s).
Proof.
  revert s. induction n as [|n IH]; intros s Hn.
  - destruct s; [|cbn in Hn; lia]. cbn. split; [lia | intros _; lia].
  - destruct s as [|c s]; [cbn; split; [lia | intros _; lia]|].
    cbn [String.length] in Hn.
    destruct (IH s ltac:(lia)) as [IHa IHb].
    assert (Hmiss : Re.match_here DEPENDENCY_URL_PATTERN (String c s) = None ->
                    length (Re.findall_from DEPENDENCY_URL_PATTERN (String c s) 0)
                    <= count_lines (String c s)).
    { intros Hm. rewrite (findall_from_miss _ _ _ Hm). cbn [count_lines].
      destruct (Ascii.eqb _ _); lia. }
    split.
    + destruct (Re.match_here DEPENDENCY_URL_PATTERN (String c s)) as [[rest g]|] eqn:Hm;
        [|now apply Hmiss].
      destruct (url_match_inv _ _ _ Hm) as (body & after & Hs & _ & _ & Ha & Hr).
      assert (Hsplit : exists m, String c s = String c m +:+ rest).
      { unfold quoted in Hs. rewrite append_cons in Hs. injection Hs as -> ->.
        subst rest. destruct after as [|y after]; cbn [Spec.skip_comma].
        - eexists. now rewrite append_cons.
        - destruct (Ascii.eqb y ",") eqn:Hy.
          + exists ("https://" +:+ body +:+ String dquote (String y "")).
            now rewrite !append_cons, !append_assoc.
          + eexists. now rewrite append_cons. }
      destruct Hsplit as [m Hsplit]. rewrite Hsplit in Hm |- *.
      rewrite (findall_from_hit _ _ _ _ _ Hm). cbn [length].
      assert (Hlen : String.length rest <= n).
      { apply (f_equal String.length) in Hsplit. rewrite append_cons in Hsplit.
        cbn [String.length] in Hsplit. rewrite string_length_app in Hsplit. lia. }
      destruct (IH rest Hlen) as [_ IHr].
      assert (Hq : last_quote rest = None) by (subst rest; now apply last_quote_skip_comma).
      specialize (IHr Hq). pose proof (count_lines_app (String c m) rest). lia.
    + intros Hq. cbn [last_quote] in Hq. cbn [count_lines].
      assert (Hm : Re.match_here DEPENDENCY_URL_PATTERN (String c s) = None).
      { apply url_needs_prefix. cbn [String.prefix].
        destruct (ascii_dec dquote c) as [<-|_]; [|reflexivity].
        change (Ascii.eqb dquote Re.newline) with false in Hq. cbn iota in Hq.
        rewrite Ascii.eqb_refl in Hq. destruct (last_quote s) as [[? ?]|]; discriminate. }
      rewrite (findall_from_miss _ _ _ Hm).
      destruct (Ascii.eqb c Re.newline); [lia|].
      destruct (last_quote s) as [[? ?]|]; [discriminate|]. now apply IHb.
Qed.

(** X11. The extractor returns at most one URL for each line of the text:
    a match runs to the last double quote of its line, and no match begins
    behind it. *)
Theorem at_most_one_url_per_line (contents : string) (remove_mirrors : bool) :
  length (_extract_dependency_urls contents remove_mirrors) <= count_lines contents.
Proof.
  destruct (findall_per_line (String.length contents) contents (le_n _)) as [H _].
  unfold _extract_dependency_urls, Re.findall. destruct remove_mirrors; [|exact H].
  etrans; [apply length_filter | exact H].
Qed.

(** * Discovery *)

Lemma read_text_cases (env : Env) (p : Path.t) (w : World) :
  exists res,
    read_text env p w = (res, log (EvOpenR p) w) /\
    match io_error env (trace w ++ [EvOpenR p]) with
    | Some err => res = Raise err
    | None =>
        match files w !! p with
        | Some data => res = Ok (string_of_list_byte data)
        | None => res = Raise (Exn "FileNotFoundError" "No such file or directory")
        end
    end.
Proof.
  unfold read_text. rewrite run_bind.
  destruct (syscall_cases env (EvOpenR p) (fun fs => fs) w) as [[Hn ->] | [err [He ->]]].
  - rewrite Hn. cbn [files]. destruct (files w !! p); eexists; split; reflexivity.
  - rewrite He. eexists; split; reflexivity.
Qed.

(** Reading the manifests changes no file, prints nothing and sends no
    request; it stops at the first file that cannot be read. *)
Lemma collect_deps_run (env : Env) (ps : list Path.t) (acc : list string) (w : World) :
  exists res w',
    collect_deps env ps acc w = (res, w') /\
    files w' = files w /\ stdout w' = stdout w /\
    requests_sent w' = requests_sent w /\
    ((forall tr, io_error env tr = None) ->
     (forall p, p ∈ ps -> is_Some (files w !! p)) ->
     res = Ok (acc ++ concat (manifest_urls w <$> ps))%list /\
     trace w' = (trace w ++ (EvOpenR <$> ps))%list).
Proof.
  revert acc w. induction ps as [|p ps IH]; intros acc w.
  - exists (Ok acc), w. split; [reflexivity|]. repeat split; try reflexivity.
    + cbn. now rewrite app_nil_r.
    + cbn. now rewrite app_nil_r.
  - cbn [collect_deps]. unfold _get_deps_from_file. rewrite !run_bind.
    destruct (read_text_cases env p w) as (res & -> & Hres).
    assert (Hsent : requests_sent (log (EvOpenR p) w) = requests_sent w).
    { rewrite requests_sent_log. apply app_nil_r. }
    destruct res as [contents|e].
    + rewrite run_ret.
      destruct (IH (acc ++ _extract_dependency_urls contents true)%list (log (EvOpenR p) w))
        as (res' & w' & -> & Hf & Hs & Hr & Hok).
      exists res', w'. split; [reflexivity|]. split; [exact Hf|]. split; [exact Hs|].
      split; [now rewrite Hr|].
      intros Hio Hex. rewrite (Hio _) in Hres.
      destruct (Hex p ltac:(left)) as [data Hd]. rewrite Hd in Hres.
      injection Hres as ->.
      assert (Hex' : forall q, q ∈ ps -> is_Some (files (log (EvOpenR p) w) !! q))
        by (intros q Hq; apply Hex; now right).
      destruct (Hok Hio Hex') as [-> Ht].
      split.
      * cbn [fmap list_fmap concat]. unfold manifest_urls at 2. rewrite Hd.
        rewrite <- app_assoc. reflexivity.
      * rewrite Ht. cbn [log trace fmap list_fmap]. now rewrite <- app_assoc.
    + exists (Raise e), (log (EvOpenR p) w). split; [reflexivity|].
      split; [reflexivity|]. split; [reflexivity|]. split; [exact Hsent|].
      intros Hio Hex. rewrite (Hio _) in Hres.
      destruct (Hex p ltac:(left)) as [data Hd]. rewrite Hd in Hres. discriminate.
Qed.

Lemma get_dependency_urls_run (env : Env) (self : TensorflowRepo) (w : World) :
  exists res w',
    _get_dependency_urls env self w = (res, w') /\
    collect_deps env (rglob w (_tf_dir self) "workspace.bzl") []
      (printed ["Found " +:+ str_of_nat (length (rglob w (_tf_dir self) "workspace.bzl"))
                  +:+ " files containing dependencies."] w) = (res, w') /\
    files w' = files w /\
    requests_sent w' = requests_sent w /\
    stdout w' = (stdout w ++
      ["Found " +:+ str_of_nat (length (rglob w (_tf_dir self) "workspace.bzl"))
         +:+ " files containing dependencies."])%list.
Proof.
  unfold _get_dependency_urls, _get_files_listing_deps. rewrite !run_bind.
  unfold print at 1. cbn beta iota.
  match goal with |- context [collect_deps env ?ps ?acc ?w1] =>
    destruct (collect_deps_run env ps acc w1) as (res & w' & E & Hf & Hs & Hr & _)
  end.
  exists res, w'. rewrite E. repeat split; assumption.
Qed.



(** X13. An exception of discovery leaves [download_build_dependencies] as
    it is, and then no request has been sent and no file has changed: an
    error in discovery is not set aside as one in a download is. When
    discovery has returned its URLs and the function comes to its end,
    every URL has been skipped, downloaded or recorded as failed, and the
    counters are the last lines printed. *)
Theorem download_build_dependencies_outcome (env : Env) (self : TensorflowRepo)
    (dir : Path.t) (w : World) :
  (forall e w1,
     _get_dependency_urls env self w = (Raise e, w1) ->
     download_build_dependencies env self dir w = (Raise e, w1) /\
     files w1 = files w /\
     requests_sent w1 = requests_sent w) /\
  (forall urls w1 w',
     _get_dependency_urls env self w = (Ok urls, w1) ->
     download_build_dependencies env self dir w = (Ok tt, w') ->
     files w1 = files w /\
     requests_sent w1 = requests_sent w /\
     exists t w2 lines,
       for_each env dir urls (mkTally [] 0 0)
         (printed ["Found " +:+ str_of_nat (length urls) +:+ " dependency urls."] w1)
         = (Ok t, w2) /\
       num_skipped t + num_success t + length (failed_downloads t) = length urls /\
       w' = printed (lines ++ final_counters t) w2).
Proof.
  destruct (get_dependency_urls_run env self w) as (res & w0 & E & _ & Hf & Hr & _).
  split.
  - intros e w1 E1. rewrite E in E1. injection E1 as -> <-.
    split; [|split; [exact Hf | exact Hr]].
    unfold download_build_dependencies. now rewrite run_bind, E.
  - intros urls w1 w' E1 Hd. rewrite E in E1. injection E1 as -> <-.
    split; [exact Hf|]. split; [exact Hr|].
    unfold download_build_dependencies in Hd. rewrite run_bind, E in Hd.
    rewrite run_bind in Hd. unfold print at 1 in Hd. cbn beta iota in Hd.
    fold (printed ["Found " +:+ str_of_nat (length urls) +:+ " dependency urls."] w0) in Hd.
    destruct (download_urls_run env self dir urls
                (printed ["Found " +:+ str_of_nat (length urls) +:+ " dependency urls."] w0))
      as (t & w2 & lines & Ef & Ed).
    destruct (for_each_run env dir urls (mkTally [] 0 0)
                (printed ["Found " +:+ str_of_nat (length urls) +:+ " dependency urls."] w0))
      as (t' & w2' & Ef' & Ha & _).
    rewrite Ef in Ef'. injection Ef' as <- <-.
    rewrite Ed in Hd. injection Hd as <-.
    exists t, w2, lines. split; [exact Ef|]. split; [exact Ha | reflexivity].
Qed.

(** X14. A manifest that cannot be opened stops the run: the exception of
    [open] leaves [download_build_dependencies], after the line that counts
    the manifests and before any URL is read, requested or written. *)
Theorem unreadable_manifest_stops_the_run (env : Env) (self : TensorflowRepo)
    (dir : Path.t) (w : World) (p : Path.t) (rest : list Path.t) (err : exn) :
  rglob w (_tf_dir self) "workspace.bzl" = p :: rest ->
  io_error env (trace w ++ [EvOpenR p]) = Some err ->
  download_build_dependencies env self dir w
    = (Raise err,
       mkWorld (files w) (trace w ++ [EvOpenR p])
         (stdout w ++ ["Found " +:+ str_of_nat (S (length rest))
                         +:+ " files containing dependencies."])).
Proof.
  intros Hl He. unfold download_build_dependencies, _get_dependency_urls,
    _get_files_listing_deps. rewrite !run_bind, Hl. unfold print at 1. cbn beta iota.
  cbn [collect_deps]. unfold _get_deps_from_file. rewrite !run_bind.
  match goal with |- context [read_text env p ?w1] =>
    destruct (read_text_cases env p w1) as (res & -> & Hres)
  end.
  cbn [trace] in Hres. rewrite He in Hres. subst res. reflexivity.
Qed.

Lemma unreadable_manifest_stops_the_run_witness :
  download_build_dependencies unreadable_env (mkRepo tf_root "2.15.0") cache_dir tree_world
    = (Raise permission_denied,
       mkWorld (files tree_world) [EvOpenR manifest_path]
         ["Found 1 files containing dependencies."]).
Proof.
  exact (unreadable_manifest_stops_the_run unreadable_env (mkRepo tf_root "2.15.0")
           cache_dir tree_world manifest_path [] permission_denied
           ltac:(evaluate) ltac:(evaluate)).
Defined.

Lemma print_run (line : string) (w : World) : print line w = (Ok tt, printed [line] w).
Proof. reflexivity. Qed.

Lemma printed_printed (a b : list string) (w : World) :
  printed b (printed a w) = printed (a ++ b) w.
Proof. unfold printed. cbn. now rewrite <- app_assoc. Qed.

Lemma report_nothing_failed (self : TensorflowRepo) (t : tally) (w : World) :
  failed_downloads t = [] ->
  report self t w
    = (Ok tt,
       printed (("Completed downloads for tensorflow==" +:+ _tf_version self +:+ ".")
                  :: final_counters t) w).
Proof.
  intros H. unfold report, final_counters.
  rewrite (bool_decide_eq_true_2 _ H).
  repeat first [ rewrite run_bind | rewrite print_run | rewrite run_ret
               | progress cbn beta iota ].
  rewrite !printed_printed. reflexivity.
Qed.

(** X15. Nothing to download: when discovery returns no URL,
    [download_build_dependencies] returns after five more lines, the counts
    all zero; from there on it makes no call and changes nothing. *)
Theorem no_url_nothing_to_do (env : Env) (self : TensorflowRepo) (dir : Path.t)
    (w w1 : World) :
  _get_dependency_urls env self w = (Ok [], w1) ->
  download_build_dependencies env self dir w
    = (Ok tt,
       printed ["Found 0 dependency urls.";
                "Completed downloads for tensorflow==" +:+ _tf_version self +:+ ".";
                "0 dependency downloads failed.";
                "0 dependency downloads skipped.";
                "0 dependency downloads completed."] w1).
Proof.
  intros E. unfold download_build_dependencies, _download_urls.
  repeat first [ rewrite run_bind | rewrite E | rewrite print_run | rewrite run_ret
               | progress cbn [for_each length]
               | progress cbn beta iota ].
  rewrite report_nothing_failed by reflexivity.
  rewrite !printed_printed. reflexivity.
Qed.

Lemma no_url_nothing_to_do_witness :
  _get_dependency_urls serving_env (mkRepo tf_root "2.15.0") mirror_only_world
    = (Ok [],
       world_after (_get_dependency_urls serving_env (mkRepo tf_root "2.15.0"))
         mirror_only_world) /\
  requests_sent
    (world_after (download_build_dependencies serving_env (mkRepo tf_root "2.15.0") cache_dir)
       mirror_only_world) = [] /\
  stdout
    (world_after (download_build_dependencies serving_env (mkRepo tf_root "2.15.0") cache_dir)
       mirror_only_world)
    = ["Found 1 files containing dependencies.";
       "Found 0 dependency urls.";
       "Completed downloads for tensorflow==2.15.0.";
       "0 dependency downloads failed.";
       "0 dependency downloads skipped.";
       "0 dependency downloads completed."].
Proof.
  assert (H : _get_dependency_urls serving_env (mkRepo tf_root "2.15.0") mirror_only_world
    = (Ok [],
       world_after (_get_dependency_urls serving_env (mkRepo tf_root "2.15.0"))
         mirror_only_world)) by evaluate.
  split; [exact H|]. unfold world_after.
  rewrite (no_url_nothing_to_do serving_env (mkRepo tf_root "2.15.0") cache_dir
             mirror_only_world _ H).
  split; evaluate.
Defined.

(** * The command line *)

(** X16. What [main] does before the constructor fails. Without
    [--tensorflow-repo] or without [--download-dir], [Path(None)] raises
    [TypeError] and nothing has happened. With both, the download directory
    is made first, and that [mkdir] is the one call made: when it fails its
    exception leaves [main], and when it succeeds the [TypeError] of the
    constructor does. *)
Theorem main_makes_the_directory_then_fails (env : Env) (w : World) :
  (forall args, tensorflow_repo args = None \/ download_dir args = None ->
     exists e, main env args w = (Raise e, w) /\ exn_class e = "TypeError") /\
  (forall repo dir,
     exists e,
       main env (mkArgs (Some repo) (Some dir)) w
         = (Raise e, log (EvMkdir (Path.of_string dir)) w) /\
       match io_error env (trace w ++ [EvMkdir (Path.of_string dir)]) with
       | Some err => e = err
       | None => exn_class e = "TypeError"
       end).
Proof.
  split.
  - intros [[repo|] [dir|]] [H|H]; try discriminate; eexists; split; reflexivity.
  - intros repo dir. unfold main. cbn -[__init__ mkdir]. mrun. unfold mkdir.
    destruct (syscall_cases env (EvMkdir (Path.of_string dir)) (fun fs => fs) w)
      as [[Hn ->] | [err [He ->]]].
    + rewrite Hn. mrun. eexists. split; reflexivity.
    + rewrite He. eexists. split; reflexivity.
Qed.

(** * The batch as a whole *)

(** X17. What a batch that comes to its end has not done. It has removed
    no file: a file that was there is there afterwards, and a URL that was
    cached is cached still. It has sent one request for each URL it did not
    skip, in the order of the list, and none for a URL that had its marker
    when the batch began. The failed URLs are recorded in the order of the
    list. *)
Theorem batch_keeps_every_file (env : Env) (self : TensorflowRepo) (dir : Path.t)
    (urls : list string) (w w' : World) :
  _download_urls env self dir urls w = (Ok tt, w') ->
  exists t w1,
    for_each env dir urls (mkTally [] 0 0) w = (Ok t, w1) /\
    files w' = files w1 /\ trace w' = trace w1 /\
    keeps_files w w' /\
    (forall v, _is_cached w dir v = true -> _is_cached w' dir v = true) /\
    failed_downloads t `sublist_of` urls /\
    exists l,
      requests_sent w' = (requests_sent w ++ l)%list /\
      l `sublist_of` urls /\
      length l = num_success t + length (failed_downloads t) /\
      forall v, v ∈ l -> _is_cached w dir v = false.
Proof.
  intros H.
  destruct (download_urls_run env self dir urls w) as (t & w1 & lines & E & Hd).
  destruct (for_each_run env dir urls (mkTally [] 0 0) w)
    as (t' & w1' & E' & Ha & Hk & (fl & Hfl & Hsub) & (l & Hr & Hn & Hsl & Hl)).
  rewrite E in E'. injection E' as <- <-.
  rewrite Hd in H. injection H as <-.
  exists t, w1.
  split; [exact E|]. split; [reflexivity|]. split; [reflexivity|].
  split; [exact Hk|]. split.
  { intros v Hv. now apply (keeps_files_cached w w1). }
  split; [now rewrite Hfl|].
  exists l. split; [exact Hr|]. split; [exact Hsl|]. split; [|exact Hl].
  unfold accounted in Ha. cbn in Ha, Hn. lia.
Qed.

Lemma batch_keeps_every_file_witness :
  _download_urls flaky_env (mkRepo tf_root "2.15.0") cache_dir
      [example_url; missing_url; example_url] empty_world
    = (Ok tt,
       world_after (_download_urls flaky_env (mkRepo tf_root "2.15.0") cache_dir
                      [example_url; missing_url; example_url]) empty_world) /\
  exists t w1,
    for_each flaky_env cache_dir [example_url; missing_url; example_url]
      (mkTally [] 0 0) empty_world = (Ok t, w1) /\
    keeps_files empty_world
      (world_after (_download_urls flaky_env (mkRepo tf_root "2.15.0") cache_dir
                      [example_url; missing_url; example_url]) empty_world).
Proof.
  assert (H : _download_urls flaky_env (mkRepo tf_root "2.15.0") cache_dir
                [example_url; missing_url; example_url] empty_world
    = (Ok tt,
       world_after (_download_urls flaky_env (mkRepo tf_root "2.15.0") cache_dir
                      [example_url; missing_url; example_url]) empty_world))
    by evaluate.
  split; [exact H|].
  destruct (batch_keeps_every_file _ _ _ _ _ _ H) as (t & w1 & E & _ & _ & Hk & _).
  exists t, w1. split; [exact E | exact Hk].
Defined.

(** * Running twice *)

Lemma for_each_all_cached (env : Env) (dir : Path.t) (urls : list string) (t : tally)
    (w : World) :
  (forall u, u ∈ urls -> _is_cached w dir u = true) ->
  for_each env dir urls t w
    = (Ok (mkTally (failed_downloads t) (num_skipped t + length urls) (num_success t)), w).
Proof.
  revert t. induction urls as [|u urls IH]; intros t H.
  - cbn. rewrite Nat.add_0_r. now destruct t.
  - rewrite for_each_cons, (download_one_cached _ _ _ _ _ (H u ltac:(left))).
    rewrite IH by (intros v Hv; apply H; now right).
    cbn [failed_downloads num_skipped num_success length]. do 3 f_equal. lia.
Qed.

Lemma download_one_marks (env : Env) (dir : Path.t) (t t1 : tally) (u : string)
    (w w1 : World) :
  (forall tr v r, http_get env tr v = Ok r -> requested_url_of r = v) ->
  download_one env dir t u w = (Ok t1, w1) ->
  _is_cached w1 dir u = true \/ u ∈ failed_downloads t1.
Proof.
  intros Hh H. destruct (_is_cached w dir u) eqn:Hc.
  - rewrite (download_one_cached _ _ _ _ _ Hc) in H. injection H as _ <-. now left.
  - destruct (fetch env dir u w) as [[[]|e] w2] eqn:Hf.
    + rewrite (download_one_success _ _ _ _ _ _ Hc Hf) in H. injection H as _ <-.
      left. destruct (http_get env (trace w) u) as [r|e] eqn:Hget.
      * destruct (fetch_ok_inv _ _ _ _ _ _ Hget Hf) as [_ Hcd].
        destruct (cache_dependency_ok _ _ _ _ _ Hcd) as (Hm & _).
        rewrite (Hh _ _ _ Hget) in Hm. now apply is_cached_marker_file.
      * rewrite (fetch_get_raises _ _ _ _ _ Hget) in Hf. discriminate.
    + rewrite (download_one_failure _ _ _ _ _ _ _ Hc Hf) in H. injection H as <- _.
      right. cbn. apply elem_of_app. right. now left.
Qed.

Lemma for_each_marks (env : Env) (dir : Path.t) (urls : list string) (t t' : tally)
    (w w' : World) :
  (forall tr v r, http_get env tr v = Ok r -> requested_url_of r = v) ->
  for_each env dir urls t w = (Ok t', w') ->
  forall u, u ∈ urls -> _is_cached w' dir u = true \/ u ∈ failed_downloads t'.
Proof.
  intros Hh. revert t w. induction urls as [|x urls IH]; intros t w H u Hu;
    [inversion Hu|].
  rewrite for_each_cons in H.
  destruct (download_one env dir t x w) as [[t1|e] w1] eqn:E1; [|discriminate].
  apply elem_of_cons in Hu. destruct Hu as [-> | Hu]; [|now apply (IH t1 w1)].
  destruct (for_each_run env dir urls t1 w1)
    as (t2 & w2 & E2 & _ & Hk & (fl & Hfl & _) & _).
  rewrite H in E2. injection E2 as <- <-.
  destruct (download_one_marks _ _ _ _ _ _ _ Hh E1) as [Hc | Hf].
  - left. now apply (keeps_files_cached w1 w').
  - right. rewrite Hfl. apply elem_of_app. now left.
Qed.

(** X18. Running twice. Let every response report the URL that was asked
    for. After a batch, each URL of the list is cached or among the failed
    ones. If none failed, a second batch over the same list, whatever the
    network then does, skips every URL: it sends no request and leaves the
    world as it found it. *)
Theorem complete_batch_makes_rerun_offline (env : Env) (dir : Path.t)
    (urls : list string) (t : tally) (w w1 : World) :
  (forall tr v r, http_get env tr v = Ok r -> requested_url_of r = v) ->
  for_each env dir urls (mkTally [] 0 0) w = (Ok t, w1) ->
  (forall u, u ∈ urls -> _is_cached w1 dir u = true \/ u ∈ failed_downloads t) /\
  (failed_downloads t = [] ->
   forall env' w2, keeps_files w1 w2 ->
     for_each env' dir urls (mkTally [] 0 0) w2
       = (Ok (mkTally [] (length urls) 0), w2)).
Proof.
  intros Hh H. pose proof (for_each_marks _ _ _ _ _ _ _ Hh H) as Hm.
  split; [exact Hm|]. intros Hf env' w2 Hk.
  apply (for_each_all_cached env' dir urls (mkTally [] 0 0) w2).
  intros u Hu. apply (keeps_files_cached w1 w2 _ _ Hk).
  destruct (Hm u Hu) as [Hc | Hin]; [exact Hc|]. rewrite Hf in Hin. inversion Hin.
Qed.

Lemma complete_batch_makes_rerun_offline_witness :
  for_each serving_env cache_dir [example_url; other_url] (mkTally [] 0 0) empty_world
    = (Ok (mkTally [] 0 2),
       world_after (for_each serving_env cache_dir [example_url; other_url] (mkTally [] 0 0))
         empty_world) /\
  for_each flaky_env cache_dir [example_url; other_url] (mkTally [] 0 0)
    (world_after (for_each serving_env cache_dir [example_url; other_url] (mkTally [] 0 0))
       empty_world)
    = (Ok (mkTally [] 2 0),
       world_after (for_each serving_env cache_dir [example_url; other_url] (mkTally [] 0 0))
         empty_world).
Proof.
  assert (H : for_each serving_env cache_dir [example_url; other_url] (mkTally [] 0 0)
                empty_world
    = (Ok (mkTally [] 0 2),
       world_after (for_each serving_env cache_dir [example_url; other_url] (mkTally [] 0 0))
         empty_world)) by evaluate.
  split; [exact H|].
  refine (proj2 (complete_batch_makes_rerun_offline serving_env cache_dir
                   [example_url; other_url] _ empty_world _ _ H) eq_refl flaky_env _ _).
  - intros tr v r [= <-]. reflexivity.
  - apply keeps_files_refl.
Defined.

(** * From the manifests to the network *)

Lemma extracted_url_is_https (contents : string) (u : string) :
  u ∈ _extract_dependency_urls contents true ->
  String.prefix "https://" u = true /\ _is_mirror_url u = false.
Proof.
  unfold _extract_dependency_urls. intros Hu. apply list_elem_of_filter in Hu.
  destruct Hu as [Hm Hin]. apply negb_true_iff in Hm. split; [|exact Hm].
  apply findall_from_elem in Hin. destruct Hin as (a & s' & rest & -> & Hmatch).
  apply url_match_inv in Hmatch. destruct Hmatch as (body & after & _ & -> & _).
  apply prefix_split. eauto.
Qed.

Lemma collect_deps_sources (env : Env) (ps : list Path.t) (acc urls : list string)
    (w w' : World) :
  collect_deps env ps acc w = (Ok urls, w') ->
  forall u, u ∈ urls ->
    u ∈ acc \/ exists contents, u ∈ _extract_dependency_urls contents true.
Proof.
  revert acc w. induction ps as [|p ps IH]; intros acc w H u Hu.
  - cbn in H. injection H as <- _. now left.
  - cbn [collect_deps] in H. unfold _get_deps_from_file in H. rewrite !run_bind in H.
    destruct (read_text env p w) as [[contents|e] w1]; [|discriminate].
    rewrite run_ret in H. destruct (IH _ _ H u Hu) as [Hin | Hex]; [|now right].
    apply elem_of_app in Hin. destruct Hin as [Hin | Hin]; [now left | right; eauto].
Qed.

Lemma download_build_dependencies_run (env : Env) (self : TensorflowRepo)
    (dir : Path.t) (w : World) :
  exists res w1,
    _get_dependency_urls env self w = (res, w1) /\
    collect_deps env (rglob w (_tf_dir self) "workspace.bzl") []
      (printed ["Found " +:+ str_of_nat (length (rglob w (_tf_dir self) "workspace.bzl"))
                  +:+ " files containing dependencies."] w) = (res, w1) /\
    requests_sent w1 = requests_sent w /\
    match res with
    | Raise e => download_build_dependencies env self dir w = (Raise e, w1)
    | Ok urls =>
        exists t w2 lines,
          for_each env dir urls (mkTally [] 0 0)
            (printed ["Found " +:+ str_of_nat (length urls) +:+ " dependency urls."] w1)
            = (Ok t, w2) /\
          download_build_dependencies env self dir w
            = (Ok tt, printed (lines ++ final_counters t) w2)
    end.
Proof.
  destruct (get_dependency_urls_run env self w) as (res & w1 & E & Ec & _ & Hr & _).
  exists res, w1. split; [exact E|]. split; [exact Ec|]. split; [exact Hr|].
  unfold download_build_dependencies. rewrite run_bind, E.
  destruct res as [urls|e]; [|reflexivity].
  rewrite run_bind, print_run.
  destruct (download_urls_run env self dir urls
              (printed ["Found " +:+ str_of_nat (length urls) +:+ " dependency urls."] w1))
    as (t & w2 & lines & Ef & Ed).
  exists t, w2, lines. split; [exact Ef | exact Ed].
Qed.

(** X19. From the manifests to the network: every request that
    [download_build_dependencies] sends is for a URL that begins with
    [https://] and names no mirror, whatever the files hold and whatever
    fails on the way. *)
Theorem only_https_urls_off_the_mirrors_are_requested (env : Env)
    (self : TensorflowRepo) (dir : Path.t) (w : World) :
  exists res w' l,
    download_build_dependencies env self dir w = (res, w') /\
    requests_sent w' = (requests_sent w ++ l)%list /\
    Forall (fun u => String.prefix "https://" u = true /\ _is_mirror_url u = false) l.
Proof.
  destruct (download_build_dependencies_run env self dir w)
    as (res & w1 & E & Ec & Hr & Hd).
  destruct res as [urls|e].
  - destruct Hd as (t & w2 & lines & Ef & Hd).
    match type of Ef with for_each env dir urls ?t0 ?w0 = _ =>
      destruct (for_each_run env dir urls t0 w0)
        as (t' & w2' & Ef' & _ & _ & _ & (l & Hs & _ & Hsub & _))
    end.
    rewrite Ef in Ef'. injection Ef' as <- <-.
    exists (Ok tt), (printed (lines ++ final_counters t) w2), l.
    split; [exact Hd|]. split.
    + change (requests_sent (printed _ w2)) with (requests_sent w2).
      rewrite Hs. change (requests_sent (printed _ w1)) with (requests_sent w1).
      now rewrite Hr.
    + apply Forall_forall. intros u Hu.
      assert (Hin : u ∈ urls) by (eapply elem_of_sublist; eauto).
      destruct (collect_deps_sources _ _ _ _ _ _ Ec u Hin) as [Hnil | [contents Hex]];
        [inversion Hnil|].
      now apply (extracted_url_is_https contents).
  - exists (Raise e), w1, []. split; [exact Hd|]. split; [now rewrite app_nil_r|].
    constructor.
Qed.
